(** * sshmaster: tunnel session manager and entity model

    A shallow embedding of [controllers/ssh_controllers.py] and
    [models/models.py].

    - [Bytes]           the [bytes] methods [get_algs_config] calls
    - [AlgsConfig]      [get_algs_config], the algorithm negotiation profile
    - [SshControllers]  [connect_ssh], [verify_ssh], [kill_proxy_on_port] over
                        the process-wide [proxies] list
    - [Models]          the [SSH] and [Port] entities, their methods and their
                        [before_update] hooks

    Python [int] is [Z], [bytes] and [str] are [string], a Pony [Set] is a
    [gset] of primary keys, a table is a [gmap] from primary key to row.

    A coroutine is a function from the state before it runs to its result (a
    value or the exception raised) and the state after: coroutines run one
    after the other, each to completion.  Calls that leave the repository
    (asyncssh, the [utils] helpers) are recorded in a trace and answered by an
    environment.  Logging and the clock of [connect_ssh] are left out.  The
    [@auto_renew_objects] decorator of the entity methods, which is not in the
    sources, reloads the entities before the call; the methods are modelled
    on the reloaded rows. *)

From Stdlib Require Import ZArith Lia Ascii String.
From stdpp Require Import gmap strings list pretty.

Local Open Scope Z_scope.

(* ===================================================================== *)
(** ** [bytes] methods *)
(* ===================================================================== *)

Module Bytes.

(** [s.startswith(prefix)] *)
Fixpoint startswith (prefix s : string) : bool :=
  match prefix, s with
  | EmptyString, _ => true
  | String _ _, EmptyString => false
  | String a prefix', String b s' =>
      if Ascii.eqb a b then startswith prefix' s' else false
  end.

(** [s.replace(old, new)] for a non-empty [old]: every occurrence of [old],
    scanning from the left without overlap, becomes [new].  [skip] counts the
    bytes of a matched occurrence that are still to be dropped. *)
Fixpoint replace_from (old new : string) (skip : nat) (s : string) : string :=
  match s with
  | EmptyString => EmptyString
  | String c s' =>
      match skip with
      | S k => replace_from old new k s'
      | O =>
          if startswith old s
          then new +:+ replace_from old new (Nat.pred (String.length old)) s'
          else String c (replace_from old new O s')
      end
  end.

Definition replace (old new s : string) : string := replace_from old new O s.

(** [s.split(sep)] for a one-byte separator: the fields between separators,
    empty fields kept, so the result is never the empty list. *)
Fixpoint split (sep : ascii) (s : string) : list string :=
  match s with
  | EmptyString => [EmptyString]
  | String c s' =>
      if Ascii.eqb c sep then EmptyString :: split sep s'
      else match split sep s' with
           | [] => [String c EmptyString]
           | field :: fields => String c field :: fields
           end
  end.

(** Truth value of a [bytes] object: non-empty. *)
Definition truthy (s : string) : bool :=
  match s with EmptyString => false | String _ _ => true end.

(** [alg.decode()]: the algorithm names are ASCII, on which UTF-8 decoding is
    the identity. *)
Definition decode (s : string) : string := s.

(** [l.remove(x)]: drops the first element equal to [x]. *)
Fixpoint list_remove (x : string) (l : list string) : list string :=
  match l with
  | [] => []
  | y :: l' => if String.eqb y x then l' else y :: list_remove x l'
  end.

(** [x in l] *)
Definition contains (x : string) (l : list string) : bool :=
  existsb (String.eqb x) l.

End Bytes.

(* ===================================================================== *)
(** ** Algorithm negotiation profile *)
(* ===================================================================== *)

Module AlgsConfig.

(** What the asyncssh getters return when [get_algs_config] first runs. *)
Record asyncssh_algs := {
  get_kex_algs : list string;
  get_encryption_algs : list string;
  get_mac_algs : list string;
  get_compression_algs : list string;
  get_x509_certificate_algs : list string;
  get_public_key_algs : list string
}.

(** The [algs_config] dict; its six keys are fixed, in insertion order. *)
Record algs_config := {
  server_host_key_algs : list string;
  kex_algs : list string;
  encryption_algs : list string;
  mac_algs : list string;
  compression_algs : list string;
  signature_algs : list string
}.

Definition set_kex_algs (v : list string) (c : algs_config) : algs_config :=
  {| server_host_key_algs := server_host_key_algs c; kex_algs := v;
     encryption_algs := encryption_algs c; mac_algs := mac_algs c;
     compression_algs := compression_algs c; signature_algs := signature_algs c |}.

Definition set_server_host_key_algs (v : list string) (c : algs_config) : algs_config :=
  {| server_host_key_algs := v; kex_algs := kex_algs c;
     encryption_algs := encryption_algs c; mac_algs := mac_algs c;
     compression_algs := compression_algs c; signature_algs := signature_algs c |}.

Definition set_encryption_algs (v : list string) (c : algs_config) : algs_config :=
  {| server_host_key_algs := server_host_key_algs c; kex_algs := kex_algs c;
     encryption_algs := v; mac_algs := mac_algs c;
     compression_algs := compression_algs c; signature_algs := signature_algs c |}.

Definition set_mac_algs (v : list string) (c : algs_config) : algs_config :=
  {| server_host_key_algs := server_host_key_algs c; kex_algs := kex_algs c;
     encryption_algs := encryption_algs c; mac_algs := v;
     compression_algs := compression_algs c; signature_algs := signature_algs c |}.

Definition set_compression_algs (v : list string) (c : algs_config) : algs_config :=
  {| server_host_key_algs := server_host_key_algs c; kex_algs := kex_algs c;
     encryption_algs := encryption_algs c; mac_algs := mac_algs c;
     compression_algs := v; signature_algs := signature_algs c |}.

Definition comma : ascii := ","%char.

Definition nistp521 : string := "ecdh-sha2-nistp521".

Definition jsch_kex : string :=
  "ecdh-sha2-nistp256,ecdh-sha2-nistp384,ecdh-sha2-nistp521,diffie-hellman-group14-sha1," +:+
  "diffie-hellman-group-exchange-sha256,diffie-hellman-group-exchange-sha1," +:+
  "diffie-hellman-group1-sha1".

Definition jsch_server_host_key : string :=
  "ssh-rsa,ssh-dss,ecdsa-sha2-nistp256,ecdsa-sha2-nistp384," +:+
  "ecdsa-sha2-nistp521".

Definition jsch_encryption : string :=
  "aes128-ctr,aes128-cbc,3des-ctr,3des-cbc,blowfish-cbc,aes192-ctr," +:+
  "aes192-cbc,aes256-ctr,aes256-cbc".

Definition jsch_mac : string := "hmac-md5,hmac-sha1,hmac-sha2-256,hmac-sha1-96,hmac-md5-96".

(** [[alg.decode() for alg in algs if alg]] *)
Definition decode_all (algs : list string) : list string :=
  map Bytes.decode (List.filter Bytes.truthy algs).

(** [get_algs_config()], statement by statement.  [@cache] makes every call
    return the value of the first one, a function of the asyncssh lists. *)
Definition get_algs_config (a : asyncssh_algs) : algs_config :=
  let c := {| server_host_key_algs := ["ssh-rsa"];
              kex_algs := get_kex_algs a;
              encryption_algs := get_encryption_algs a;
              mac_algs := get_mac_algs a;
              compression_algs := get_compression_algs a;
              signature_algs := get_x509_certificate_algs a ++ get_public_key_algs a |} in
(* OpenSSH 7.2 compatibility *)
let c := if Bytes.contains nistp521 (kex_algs c)
         then set_kex_algs (Bytes.list_remove nistp521 (kex_algs c)) c
         else c in
(* Reverse order of kex_algs to prefer less secure algorithms *)
let c := set_kex_algs (rev (kex_algs c)) c in
(* Mimic JSCH config *)
let c := set_kex_algs (Bytes.split comma jsch_kex) c in
let c := set_server_host_key_algs (Bytes.split comma jsch_server_host_key) c in
let c := set_encryption_algs
           (Bytes.split comma (Bytes.replace "3des-ctr" "" jsch_encryption)) c in
let c := set_mac_algs (Bytes.split comma jsch_mac) c in
let c := set_compression_algs (Bytes.split comma "none") c in
(* for key, algs in algs_config.items(): ... *)
{| server_host_key_algs := decode_all (server_host_key_algs c);
   kex_algs := decode_all (kex_algs c);
   encryption_algs := decode_all (encryption_algs c);
   mac_algs := decode_all (mac_algs c);
   compression_algs := decode_all (compression_algs c);
   signature_algs := decode_all (signature_algs c) |}.

End AlgsConfig.

(* ===================================================================== *)
(** ** Tunnel session manager *)
(* ===================================================================== *)

Module SshControllers.

(** An [asyncssh.SSHClientConnection] object, by identity. *)
Definition SSHClientConnection := nat.

Module ProxyInfo.
Record t := {
  port : Z;
  connection : SSHClientConnection;
  host : string;
  proxy_type : string
}.

(** [ProxyInfo(port=port, connection=connection)] with the dataclass
    defaults. *)
Definition new (port : Z) (connection : SSHClientConnection) : t :=
  {| port := port; connection := connection;
     host := "localhost"; proxy_type := "socks5" |}.

(** [f"{self.proxy_type}://{self.host}:{self.port}"] *)
Definition address (self : t) : string :=
  proxy_type self +:+ "://" +:+ host self +:+ ":" +:+ pretty (port self).

(** The dataclass [__eq__]: field by field. *)
#[global] Instance eq_dec : EqDecision t.
Proof. solve_decision. Defined.
End ProxyInfo.

(** An exception raised by a library [connect_ssh] awaits, by what the
    [except] clauses can tell of it: its class name and the classes it is an
    instance of by its own bases.  A class may derive from several of them
    ([asyncssh.TimeoutError] derives from [asyncssh.Error] and from
    [asyncio.TimeoutError]). *)
Record library_exception := {
  class_name : string;
  derives_OSError : bool;                 (* a subclass of OSError *)
  derives_asyncssh_Error : bool;          (* a subclass of asyncssh.Error *)
  derives_asyncio_TimeoutError : bool     (* a subclass of asyncio.TimeoutError *)
}.

(** [OSError] and its subclasses: [ConnectionRefusedError], the builtin
    [TimeoutError], ... *)
Definition OSError (name : string) : library_exception :=
  {| class_name := name; derives_OSError := true;
     derives_asyncssh_Error := false; derives_asyncio_TimeoutError := false |}.

(** [asyncssh.Error] and its subclasses that derive from neither of the other
    two: [PermissionDenied], [ConnectionLost], ... *)
Definition AsyncsshError (name : string) : library_exception :=
  {| class_name := name; derives_OSError := false;
     derives_asyncssh_Error := true; derives_asyncio_TimeoutError := false |}.

(** [asyncio.TimeoutError], what the 30 second connect timeout raises. *)
Definition AsyncioTimeoutError : library_exception :=
  {| class_name := "TimeoutError"; derives_OSError := false;
     derives_asyncssh_Error := false; derives_asyncio_TimeoutError := true |}.

(** [asyncssh.TimeoutError] *)
Definition AsyncsshTimeoutError : library_exception :=
  {| class_name := "TimeoutError"; derives_OSError := false;
     derives_asyncssh_Error := true; derives_asyncio_TimeoutError := true |}.

(** A class no handler names, e.g. [asyncio.CancelledError]. *)
Definition OtherException (name : string) : library_exception :=
  {| class_name := name; derives_OSError := false;
     derives_asyncssh_Error := false; derives_asyncio_TimeoutError := false |}.

(** The argument of [SSHError(...)]. *)
Inductive ssh_error_message :=
| CannotConnectToForwardedProxy              (* "Cannot connect to forwarded proxy." *)
| Wrapped (exc : library_exception)          (* f"{type(exc).__name__}: {exc}." *)
| NoProxyOnPort (port : Z).                  (* f"No proxy on port {port} found." *)

Inductive exception :=
| LibraryException (exc : library_exception)
| SSHError (message : ssh_error_message).

(** Calls that leave the module, in the order they were made (newest
    first). *)
Inductive event :=
| GetFreePort                                              (* utils.get_free_port() *)
| Connect (host username password : string) (ssh_port : Z) (* asyncssh.connect(...) *)
| ForwardSocks (connection : SSHClientConnection) (port : Z) (* connection.forward_socks('', port) *)
| GetProxyIp (address : string)                            (* get_proxy_ip(address) *)
| KillSshConnection (connection : SSHClientConnection).     (* utils.kill_ssh_connection(connection) *)

#[global] Instance event_eq_dec : EqDecision event.
Proof. solve_decision. Defined.

(** The world outside the module.  Each answer is a function of the calls
    made so far, the one being answered at the head.

    [asyncio_timeout_is_oserror] tells whether [asyncio.TimeoutError] is the
    builtin [TimeoutError] (a subclass of [OSError]), as it is from Python
    3.11 on. *)
Record environment := {
  asyncio_timeout_is_oserror : bool;
  free_port : list event -> Z;
  connect_outcome : list event -> library_exception + SSHClientConnection;
  forward_socks_outcome : list event -> option library_exception;
  proxy_ip : list event -> string
}.

(** The module-level [proxies] list and the calls made so far. *)
Record state := {
  proxies : list ProxyInfo.t;
  trace : list event
}.

Definition initial : state := {| proxies := []; trace := [] |}.

Inductive result (A : Type) :=
| Return (a : A)
| Raise (e : exception).
Arguments Return {A} a.
Arguments Raise {A} e.

(** A coroutine run to completion: its result or the exception it raised,
    and the state it left. *)
Definition M (A : Type) : Type := state -> result A * state.

#[global] Instance M_ret : MRet M := fun A a st => (Return a, st).

#[global] Instance M_bind : MBind M := fun A B f m st =>
  match m st with
  | (Return a, st') => f a st'
  | (Raise e, st') => (Raise e, st')
  end.

Definition raise {A} (e : exception) : M A := fun st => (Raise e, st).

(** [try: body  except ...: handler]; a handler re-raises what its clauses
    do not match. *)
Definition try_except {A} (body : M A) (handler : exception -> M A) : M A :=
  fun st =>
    match body st with
    | (Return a, st') => (Return a, st')
    | (Raise e, st') => handler e st'
    end.

Definition call (ev : event) : M (list event) := fun st =>
  let tr := ev :: trace st in
  (Return tr, {| proxies := proxies st; trace := tr |}).

Definition get_proxies : M (list ProxyInfo.t) := fun st => (Return (proxies st), st).

(** [proxies.append(proxy_info)] *)
Definition proxies_append (proxy_info : ProxyInfo.t) : M unit := fun st =>
  (Return tt, {| proxies := proxies st ++ [proxy_info]; trace := trace st |}).

(** [l.remove(x)]: drops the first element equal to [x]. *)
Fixpoint remove_first (x : ProxyInfo.t) (l : list ProxyInfo.t) : list ProxyInfo.t :=
  match l with
  | [] => []
  | y :: l' => if decide (y = x) then l' else y :: remove_first x l'
  end.

(** [proxies.remove(proxy)] *)
Definition proxies_remove (proxy : ProxyInfo.t) : M unit := fun st =>
  (Return tt, {| proxies := remove_first proxy (proxies st); trace := trace st |}).

(** [not port] for [port: int = None] *)
Definition not_port (port : option Z) : bool :=
  match port with
  | None => true
  | Some p => p =? 0
  end.

Section WithEnvironment.
Context (env : environment).

(** [isinstance(exc, OSError)]: by its own bases, or through
    [asyncio.TimeoutError] where that is the builtin [TimeoutError]. *)
Definition is_OSError (exc : library_exception) : bool :=
  derives_OSError exc ||
  (derives_asyncio_TimeoutError exc && asyncio_timeout_is_oserror env).

(** [isinstance(exc, (asyncssh.Error, asyncio.TimeoutError))] *)
Definition is_asyncssh_Error_or_TimeoutError (exc : library_exception) : bool :=
  derives_asyncssh_Error exc || derives_asyncio_TimeoutError exc.

(** Modelled from the spec: [utils.get_free_port] is not in the sources;
    the free-port provider returns an integer. *)
Definition get_free_port : M Z :=
  tr ← call GetFreePort; mret (free_port env tr).

(** [await asyncssh.connect(host, username=..., password=..., port=ssh_port,
    ...)]: the connection, or the exception the handshake raised. *)
Definition asyncssh_connect (host username password : string) (ssh_port : Z)
  : M SSHClientConnection :=
  tr ← call (Connect host username password ssh_port);
  match connect_outcome env tr with
  | inl exc => raise (LibraryException exc)
  | inr connection => mret connection
  end.

(** [await connection.forward_socks('', port)] *)
Definition forward_socks (connection : SSHClientConnection) (port : Z) : M unit :=
  tr ← call (ForwardSocks connection port);
  match forward_socks_outcome env tr with
  | Some exc => raise (LibraryException exc)
  | None => mret tt
  end.

(** Modelled from the spec: [utils.get_proxy_ip] is not in the sources;
    the IP lookup returns the egress address, empty when the lookup
    failed. *)
Definition get_proxy_ip (address : string) : M string :=
  tr ← call (GetProxyIp address); mret (proxy_ip env tr).

(** Modelled from the spec: [utils.kill_ssh_connection] is not in the
    sources; it closes the underlying connection.  It is handed the
    connection only and leaves [proxies] alone. *)
Definition kill_ssh_connection (connection : SSHClientConnection) : M unit :=
  _ ← call (KillSshConnection connection); mret tt.

(** [kill_proxy_on_port(port)]: the [for ... else] finds the first proxy on
    the port. *)
Definition kill_proxy_on_port (port : Z) : M unit :=
  ps ← get_proxies;
  match List.find (fun proxy => ProxyInfo.port proxy =? port) ps with
  | Some proxy =>
      proxies_remove proxy;;
      kill_ssh_connection (ProxyInfo.connection proxy)
  | None => raise (SSHError (NoProxyOnPort port))
  end.

(** Lines 92-98: the port to forward, once a proxy already registered on
    it has been killed. *)
Definition prepare (port : option Z) : M Z :=
  port ← (if not_port port then get_free_port else mret (default 0 port));
  try_except (kill_proxy_on_port port)
    (fun exc => match exc with SSHError _ => mret tt | _ => raise exc end);;
  mret port.

(** Lines 108-119, the body of the inner [try]. *)
Definition open_tunnel (host username password : string) (port ssh_port : Z)
  : M ProxyInfo.t :=
  connection ← asyncssh_connect host username password ssh_port;
  forward_socks connection port;;
  let proxy_info := ProxyInfo.new port connection in
  ip ← get_proxy_ip (ProxyInfo.address proxy_info);
  if Bytes.truthy ip then mret proxy_info
  else
    kill_ssh_connection connection;;
    raise (SSHError CannotConnectToForwardedProxy).

(** One activation of [connect_ssh].  [again] is the recursive call of
    line 123, present when [retry > 0]; it is given the resolved port.
    The body of the [try] yields [inl proxy_info] when control falls
    through to line 136 and [inr] what a [return] inside it returned. *)
Definition connect_ssh_body (again : option (Z -> M ProxyInfo.t))
    (host username password : string) (port : option Z) (ssh_port : Z)
  : M ProxyInfo.t :=
  port ← prepare port;
  r ← try_except
        (try_except
           (proxy_info ← open_tunnel host username password port ssh_port;
            mret (inl proxy_info))
           (fun exc =>
              match exc with
              | LibraryException e =>
                  if is_OSError e then
                    match again with
                    | Some connect_ssh => r ← connect_ssh port; mret (inr r)
                    | None => raise (SSHError (Wrapped e))
                    end
                  else if is_asyncssh_Error_or_TimeoutError e then
                    raise (SSHError (Wrapped e))
                  else raise exc
              | SSHError _ => raise exc
              end))
        (fun exc => raise exc);
  match r with
  | inr returned => mret returned
  | inl proxy_info => proxies_append proxy_info;; mret proxy_info
  end.

(** [connect_ssh] with [n] retries left, [n] being [max(retry, 0)]. *)
Fixpoint connect_ssh_retries (n : nat)
    (host username password : string) (port : option Z) (ssh_port : Z)
  : M ProxyInfo.t :=
  connect_ssh_body
    (match n with
     | S n' => Some (fun port' =>
                 connect_ssh_retries n' host username password (Some port') ssh_port)
     | O => None
     end)
    host username password port ssh_port.

(** [connect_ssh(host, username, password, port, ssh_port, retry)] *)
Definition connect_ssh (host username password : string) (port : option Z)
    (ssh_port retry : Z) : M ProxyInfo.t :=
  connect_ssh_retries (Z.to_nat retry) host username password port ssh_port.

(** [verify_ssh(host, username, password, ssh_port)] *)
Definition verify_ssh (host username password : string) (ssh_port : Z) : M bool :=
  try_except
    (proxy_info ← connect_ssh host username password None ssh_port 3;
     kill_ssh_connection (ProxyInfo.connection proxy_info);;
     mret true)
    (fun exc => match exc with SSHError _ => mret false | _ => raise exc end).

(** Calls of the module's coroutines, one after the other. *)
Inductive operation :=
| CallConnectSsh (host username password : string) (port : option Z) (ssh_port retry : Z)
| CallVerifySsh (host username password : string) (ssh_port : Z)
| CallKillProxyOnPort (port : Z).

Definition run_operation (st : state) (op : operation) : state :=
  match op with
  | CallConnectSsh host username password port ssh_port retry =>
      snd (connect_ssh host username password port ssh_port retry st)
  | CallVerifySsh host username password ssh_port =>
      snd (verify_ssh host username password ssh_port st)
  | CallKillProxyOnPort port => snd (kill_proxy_on_port port st)
  end.

Definition run (ops : list operation) (st : state) : state :=
  fold_left run_operation ops st.

End WithEnvironment.

(** Number of [asyncssh.connect] calls in a trace. *)
Definition is_connect (ev : event) : bool :=
  match ev with Connect _ _ _ _ => true | _ => false end.

Definition connection_attempts (tr : list event) : nat :=
  length (List.filter is_connect tr).

(** The sessions registered on a port. *)
Definition sessions_on (port : Z) (st : state) : list ProxyInfo.t :=
  List.filter (fun proxy => ProxyInfo.port proxy =? port) (proxies st).

(** No two registered sessions share a port number. *)
Definition one_session_per_port (st : state) : Prop :=
  NoDup (map ProxyInfo.port (proxies st)).

(** The tunnel is open and verified end to end: the newest calls are a
    handshake that returned the session's connection, a SOCKS forward on the
    session's port that went through, and an IP lookup through the session's
    address that came back non-empty. *)
Definition established (env : environment) (host username password : string)
    (ssh_port : Z) (tr : list event) (proxy_info : ProxyInfo.t) : Prop :=
  exists tr0,
    let tr1 := Connect host username password ssh_port :: tr0 in
    let tr2 := ForwardSocks (ProxyInfo.connection proxy_info)
                            (ProxyInfo.port proxy_info) :: tr1 in
    tr = GetProxyIp (ProxyInfo.address proxy_info) :: tr2 /\
    connect_outcome env tr1 = inr (ProxyInfo.connection proxy_info) /\
    forward_socks_outcome env tr2 = None /\
    Bytes.truthy (proxy_ip env tr) = true.

(** The [asyncssh.connect] calls among [evs] all carry the same arguments. *)
Definition same_parameters (host username password : string) (ssh_port : Z)
    (evs : list event) : Prop :=
  forall ev, In ev evs -> is_connect ev = true ->
             ev = Connect host username password ssh_port.

(** *** Environments used in the examples *)

(** Every endpoint refuses the connection. *)
Definition env_refused : environment :=
  {| asyncio_timeout_is_oserror := false;
     free_port := fun _ => 1080;
     connect_outcome := fun _ => inl (OSError "ConnectionRefusedError");
     forward_socks_outcome := fun _ => None;
     proxy_ip := fun _ => "" |}.

(** Every endpoint accepts, forwards and proxies; connection objects are
    numbered by the length of the trace. *)
Definition env_healthy : environment :=
  {| asyncio_timeout_is_oserror := false;
     free_port := fun _ => 1080;
     connect_outcome := fun tr => inr (length tr);
     forward_socks_outcome := fun _ => None;
     proxy_ip := fun _ => "203.0.113.7" |}.

(** Every endpoint accepts and forwards, the IP lookup comes back empty. *)
Definition env_unreachable_proxy : environment :=
  {| asyncio_timeout_is_oserror := false;
     free_port := fun _ => 1080;
     connect_outcome := fun tr => inr (length tr);
     forward_socks_outcome := fun _ => None;
     proxy_ip := fun _ => "" |}.

(** Every endpoint rejects the password. *)
Definition env_denied : environment :=
  {| asyncio_timeout_is_oserror := false;
     free_port := fun _ => 1080;
     connect_outcome := fun _ => inl (AsyncsshError "PermissionDenied");
     forward_socks_outcome := fun _ => None;
     proxy_ip := fun _ => "" |}.

(** The awaiting task is cancelled during the handshake. *)
Definition env_cancelled : environment :=
  {| asyncio_timeout_is_oserror := false;
     free_port := fun _ => 1080;
     connect_outcome := fun _ => inl (OtherException "CancelledError");
     forward_socks_outcome := fun _ => None;
     proxy_ip := fun _ => "" |}.

(** Every handshake runs into the 30 second connect timeout, on an
    interpreter where [asyncio.TimeoutError] is not an [OSError]. *)
Definition env_timed_out : environment :=
  {| asyncio_timeout_is_oserror := false;
     free_port := fun _ => 1080;
     connect_outcome := fun _ => inl AsyncioTimeoutError;
     forward_socks_outcome := fun _ => None;
     proxy_ip := fun _ => "" |}.

(** Every handshake raises [asyncssh.TimeoutError], on an interpreter where
    [asyncio.TimeoutError] is the builtin [TimeoutError]. *)
Definition env_asyncssh_timeout : environment :=
  {| asyncio_timeout_is_oserror := true;
     free_port := fun _ => 1080;
     connect_outcome := fun _ => inl AsyncsshTimeoutError;
     forward_socks_outcome := fun _ => None;
     proxy_ip := fun _ => "" |}.

(** Every endpoint accepts the login and then refuses the SOCKS forward. *)
Definition env_forward_refused : environment :=
  {| asyncio_timeout_is_oserror := false;
     free_port := fun _ => 1080;
     connect_outcome := fun tr => inr (length tr);
     forward_socks_outcome := fun _ => Some (AsyncsshError "ChannelOpenError");
     proxy_ip := fun _ => "203.0.113.7" |}.

(** A registry holding two sessions, on ports 1080 and 1081. *)
Definition two_registered : state :=
  {| proxies := [ProxyInfo.new 1080 2%nat; ProxyInfo.new 1081 5%nat]; trace := [] |}.

(** A registry holding one session, on port 1080. *)
Definition one_registered : state :=
  {| proxies := [ProxyInfo.new 1080 2%nat]; trace := [] |}.

(** Unfolds the operations of [M]. *)
Ltac unfold_M :=
  unfold mbind, M_bind, mret, M_ret, raise, try_except, call, get_proxies,
    proxies_append, proxies_remove in *.

End SshControllers.

(* ===================================================================== *)
(** ** Entity model *)
(* ===================================================================== *)

Module Models.

(** [datetime] values, as a count of ticks. *)
Definition datetime := Z.

(** The columns of an [SSH] row.  The relationship attributes [port] and
    [used_ports] are the reverse sides of [Port.ssh] and
    [Port.used_ssh_list] and are read off the [Port] table. *)
Record SSH := {
  ssh_last_checked : option datetime;
  ssh_last_modified : datetime;
  ip : string;
  username : string;
  password : string;
  ssh_port : Z;
  is_live : option bool
}.

(** The columns of a [Port] row; [ssh] and [used_ssh_list] hold primary keys
    of [SSH] rows. *)
Record Port := {
  last_checked : option datetime;
  last_modified : datetime;
  port_number : Z;
  auto_connect : bool;
  ssh : option Z;
  is_connected : bool;
  public_ip : string;
  time_connected : option datetime;
  is_working : bool;
  used_ssh_list : gset Z;
  proxy_address : string
}.

(** The entity store. *)
Record Db := {
  ssh_table : gmap Z SSH;
  port_table : gmap Z Port
}.

(** *** Attribute assignment *)

Definition set_last_checked (v : option datetime) (self : Port) : Port :=
  {| last_checked := v; last_modified := last_modified self;
     port_number := port_number self; auto_connect := auto_connect self;
     ssh := ssh self; is_connected := is_connected self;
     public_ip := public_ip self; time_connected := time_connected self;
     is_working := is_working self; used_ssh_list := used_ssh_list self;
     proxy_address := proxy_address self |}.

Definition set_last_modified (v : datetime) (self : Port) : Port :=
  {| last_checked := last_checked self; last_modified := v;
     port_number := port_number self; auto_connect := auto_connect self;
     ssh := ssh self; is_connected := is_connected self;
     public_ip := public_ip self; time_connected := time_connected self;
     is_working := is_working self; used_ssh_list := used_ssh_list self;
     proxy_address := proxy_address self |}.

Definition set_ssh (v : option Z) (self : Port) : Port :=
  {| last_checked := last_checked self; last_modified := last_modified self;
     port_number := port_number self; auto_connect := auto_connect self;
     ssh := v; is_connected := is_connected self;
     public_ip := public_ip self; time_connected := time_connected self;
     is_working := is_working self; used_ssh_list := used_ssh_list self;
     proxy_address := proxy_address self |}.

Definition set_is_connected (v : bool) (self : Port) : Port :=
  {| last_checked := last_checked self; last_modified := last_modified self;
     port_number := port_number self; auto_connect := auto_connect self;
     ssh := ssh self; is_connected := v;
     public_ip := public_ip self; time_connected := time_connected self;
     is_working := is_working self; used_ssh_list := used_ssh_list self;
     proxy_address := proxy_address self |}.

Definition set_public_ip (v : string) (self : Port) : Port :=
  {| last_checked := last_checked self; last_modified := last_modified self;
     port_number := port_number self; auto_connect := auto_connect self;
     ssh := ssh self; is_connected := is_connected self;
     public_ip := v; time_connected := time_connected self;
     is_working := is_working self; used_ssh_list := used_ssh_list self;
     proxy_address := proxy_address self |}.

Definition set_time_connected (v : option datetime) (self : Port) : Port :=
  {| last_checked := last_checked self; last_modified := last_modified self;
     port_number := port_number self; auto_connect := auto_connect self;
     ssh := ssh self; is_connected := is_connected self;
     public_ip := public_ip self; time_connected := v;
     is_working := is_working self; used_ssh_list := used_ssh_list self;
     proxy_address := proxy_address self |}.

Definition set_is_working (v : bool) (self : Port) : Port :=
  {| last_checked := last_checked self; last_modified := last_modified self;
     port_number := port_number self; auto_connect := auto_connect self;
     ssh := ssh self; is_connected := is_connected self;
     public_ip := public_ip self; time_connected := time_connected self;
     is_working := v; used_ssh_list := used_ssh_list self;
     proxy_address := proxy_address self |}.

Definition set_used_ssh_list (v : gset Z) (self : Port) : Port :=
  {| last_checked := last_checked self; last_modified := last_modified self;
     port_number := port_number self; auto_connect := auto_connect self;
     ssh := ssh self; is_connected := is_connected self;
     public_ip := public_ip self; time_connected := time_connected self;
     is_working := is_working self; used_ssh_list := v;
     proxy_address := proxy_address self |}.

Definition set_proxy_address (v : string) (self : Port) : Port :=
  {| last_checked := last_checked self; last_modified := last_modified self;
     port_number := port_number self; auto_connect := auto_connect self;
     ssh := ssh self; is_connected := is_connected self;
     public_ip := public_ip self; time_connected := time_connected self;
     is_working := is_working self; used_ssh_list := used_ssh_list self;
     proxy_address := v |}.

Definition set_ssh_last_checked (v : option datetime) (self : SSH) : SSH :=
  {| ssh_last_checked := v; ssh_last_modified := ssh_last_modified self;
     ip := ip self; username := username self; password := password self;
     ssh_port := ssh_port self; is_live := is_live self |}.

Definition set_ssh_last_modified (v : datetime) (self : SSH) : SSH :=
  {| ssh_last_checked := ssh_last_checked self; ssh_last_modified := v;
     ip := ip self; username := username self; password := password self;
     ssh_port := ssh_port self; is_live := is_live self |}.

Definition set_is_live (v : option bool) (self : SSH) : SSH :=
  {| ssh_last_checked := ssh_last_checked self;
     ssh_last_modified := ssh_last_modified self;
     ip := ip self; username := username self; password := password self;
     ssh_port := ssh_port self; is_live := v |}.

(** *** [Port] methods

    [now] is what [datetime.now()] returns and [ipv4] what
    [utils.get_ipv4_address()] returns while the method runs. *)

(** [Port.before_update], run by the store when a modified [Port] is
    written back. *)
Definition Port_before_update (now : datetime) (ipv4 : string) (self : Port) : Port :=
(* super().before_update() *)
let self := set_last_modified now self in
(* Update time connected *)
let self :=
  if is_connected self
  then set_time_connected (Some (default now (time_connected self))) self
  else set_time_connected None self in
(* Update used SSH *)
let self :=
  if is_connected self then
    match ssh self with
    | Some s =>
        if decide (s ∈ used_ssh_list self) then self
        else set_used_ssh_list ({[s]} ∪ used_ssh_list self) self
    | None => self
    end
  else self in
set_proxy_address ("socks5://" +:+ ipv4 +:+ ":" +:+ pretty (port_number self)) self.

(** [Port.need_reset(time_expired)] *)
Definition Port_need_reset (time_expired : datetime) (self : Port) : bool :=
  match time_connected self with
  | Some t => t <? time_expired
  | None => false
  end.

(** [Port.need_ssh] *)
Definition Port_need_ssh (self : Port) : bool :=
  match ssh self with None => true | Some _ => false end.

(** [Port.assign_ssh(ssh)] *)
Definition Port_assign_ssh (new_ssh : option Z) (self : Port) : Port :=
  let self := set_ssh new_ssh self in
  let self := set_is_connected false self in
  set_last_checked None self.

(** [Port.disconnect_ssh(remove_from_used)]; removing from a Pony [Set] an
    item it does not hold changes nothing. *)
Definition Port_disconnect_ssh (remove_from_used : bool) (self : Port) : Port :=
  let self :=
    match ssh self with
    | Some s =>
        if remove_from_used
        then set_used_ssh_list (used_ssh_list self ∖ {[s]}) self
        else self
    | None => self
    end in
  Port_assign_ssh None self.

(** [Port.reset_status()] *)
Definition Port_reset_status (self : Port) : Port :=
(* super().reset_status() *)
let self := set_last_checked None self in
let self := set_public_ip "" self in
let self := set_ssh None self in
let self := set_is_connected false self in
let self := set_used_ssh_list ∅ self in
set_is_working false self.

(** A keyword argument of [Port.update_check_result(kwargs...)]. *)
Inductive port_kwarg :=
| kw_is_connected (v : bool)
| kw_is_working (v : bool)
| kw_public_ip (v : string).

Definition Port_set_kwarg (self : Port) (kw : port_kwarg) : Port :=
  match kw with
  | kw_is_connected v => set_is_connected v self
  | kw_is_working v => set_is_working v self
  | kw_public_ip v => set_public_ip v self
  end.

(** [Model._update_check_result(kwargs...)] on a [Port]:
    [self.set(kwargs..., last_checked=datetime.now())]. *)
Definition Port_update_check_result (kwargs : list port_kwarg) (now : datetime)
    (self : Port) : Port :=
  set_last_checked (Some now) (fold_left Port_set_kwarg kwargs self).

(** A method call on a [Port] followed by the write-back that runs the
    hook. *)
Definition Port_commit (method : Port -> Port) (now : datetime) (ipv4 : string)
    (self : Port) : Port :=
  Port_before_update now ipv4 (method self).

(** *** [SSH] methods *)

(** [ssh.port], the reverse side of the one-to-one [Port.ssh]: the key of a
    port that holds [s]. *)
Definition SSH_port (db : Db) (s : Z) : option Z :=
  fst <$> List.find (fun kv => bool_decide (ssh (snd kv) = Some s))
                    (map_to_list (port_table db)).

(** [port in ssh.used_ports], the reverse side of [Port.used_ssh_list]. *)
Definition in_used_ports (db : Db) (p s : Z) : bool :=
  match port_table db !! p with
  | Some row => bool_decide (s ∈ used_ssh_list row)
  | None => false
  end.

(** [ssh.used_ports.add(port)]: one more pair of the many-to-many relation
    that [Port.used_ssh_list] reads. *)
Definition used_ports_add (p s : Z) (db : Db) : Db :=
  {| ssh_table := ssh_table db;
     port_table :=
       alter (fun row => set_used_ssh_list ({[s]} ∪ used_ssh_list row) row) p
             (port_table db) |}.

(** [SSH.before_update], run by the store when the modified [SSH] with key
    [s] is written back. *)
Definition SSH_before_update (now : datetime) (s : Z) (db : Db) : Db :=
(* super().before_update() *)
let db := {| ssh_table := alter (set_ssh_last_modified now) s (ssh_table db);
             port_table := port_table db |} in
(* Update used ports *)
match SSH_port db s with
| Some p => if in_used_ports db p s then db else used_ports_add p s db
| None => db
end.

(** [Model._update_check_result(is_live=v)] on the [SSH] with key [s],
    written back. *)
Definition SSH_update_check_result (v : option bool) (now : datetime) (s : Z)
    (db : Db) : Db :=
  let db := {| ssh_table :=
                 alter (fun row => set_ssh_last_checked (Some now) (set_is_live v row))
                       s (ssh_table db);
               port_table := port_table db |} in
  SSH_before_update now s db.

(** A [Port] method on the row with key [p], written back.  Assigning an
    [SSH] that another port holds takes it from that port, the relation
    being one-to-one. *)
Definition Db_port_commit (method : Port -> Port) (now : datetime) (ipv4 : string)
    (p : Z) (db : Db) : Db :=
  {| ssh_table := ssh_table db;
     port_table := alter (Port_commit method now ipv4) p (port_table db) |}.

(** A port that loses the [SSH] it held holds nothing; it is modified, so
    it is written back too. *)
Definition release_ssh_written (now : datetime) (ipv4 : string) (s : Z)
    (row : Port) : Port :=
  if bool_decide (ssh row = Some s)
  then Port_before_update now ipv4 (set_ssh None row)
  else row.

Definition Db_assign_ssh (new_ssh : option Z) (now : datetime) (ipv4 : string)
    (p : Z) (db : Db) : Db :=
  let db :=
    match new_ssh with
    | Some s =>
        {| ssh_table := ssh_table db;
           port_table :=
             map_imap (fun q row =>
                         Some (if decide (q = p) then row
                               else release_ssh_written now ipv4 s row))
                      (port_table db) |}
    | None => db
    end in
  Db_port_commit (Port_assign_ssh new_ssh) now ipv4 p db.

(** [cls.select(lambda s: s.is_live)] *)
Definition select_is_live (db : Db) : list (Z * SSH) :=
  List.filter (fun kv => bool_decide (is_live (snd kv) = Some true))
              (map_to_list (ssh_table db)).

(** [query.filter(lambda s: s.id not in port.used_ssh_list.id)] *)
Definition filter_unused (port : Port) (query : list (Z * SSH)) : list (Z * SSH) :=
  List.filter (fun kv => bool_decide (fst kv ∉ used_ssh_list port)) query.

(** [query.random(1)]: the rows in random order, cut to one.  [rnd] is the
    draw; on [n] rows it takes the row at position [rnd mod n]. *)
Definition random_1 (rnd : nat) (query : list (Z * SSH)) : list (Z * SSH) :=
  match query !! (rnd `mod` length query)%nat with
  | Some row => [row]
  | None => []
  end.

(** The rows [get_ssh_for_port] draws from. *)
Definition candidates (db : Db) (port : Port) (unique : bool) : list (Z * SSH) :=
  let query := select_is_live db in
  if unique then filter_unused port query else query.

(** [SSH.get_ssh_for_port(port, unique)] *)
Definition get_ssh_for_port (rnd : nat) (db : Db) (port : Port) (unique : bool)
  : option (Z * SSH) :=
  match random_1 rnd (candidates db port unique) with
  | result0 :: _ => Some result0
  | [] => None
  end.

(** [SSH.delete_if_died()] on the row with key [s].  [self.delete()] is
    Pony's: the row goes, a port that held it holds nothing and is written
    back, and it leaves every [used_ssh_list]. *)
Definition forget_ssh (now : datetime) (ipv4 : string) (s : Z) (row : Port) : Port :=
  set_used_ssh_list (used_ssh_list row ∖ {[s]}) (release_ssh_written now ipv4 s row).

Definition SSH_delete (now : datetime) (ipv4 : string) (s : Z) (db : Db) : Db :=
  {| ssh_table := delete s (ssh_table db);
     port_table := forget_ssh now ipv4 s <$> port_table db |}.

Definition delete_if_died (now : datetime) (ipv4 : string) (s : Z) (db : Db)
  : Db * bool :=
  match ssh_table db !! s with
  | Some row =>
      match is_live row with
      | Some true => (db, false)
      | _ => (SSH_delete now ipv4 s db, true)
      end
  | None => (db, false)
  end.

(** *** Rows used in the examples *)

Definition fresh_port (number : Z) : Port :=
  {| last_checked := None; last_modified := 0; port_number := number;
     auto_connect := true; ssh := None; is_connected := false;
     public_ip := ""; time_connected := None; is_working := false;
     used_ssh_list := ∅; proxy_address := "" |}.

Definition fresh_ssh (address : string) : SSH :=
  {| ssh_last_checked := None; ssh_last_modified := 0; ip := address;
     username := "admin"; password := "admin"; ssh_port := 22;
     is_live := None |}.

(** A connected, working port that has used the credentials 1 and 2 and
    holds 1. *)
Definition busy_port : Port :=
  {| last_checked := Some 90; last_modified := 90; port_number := 20000;
     auto_connect := true; ssh := Some 1; is_connected := true;
     public_ip := "203.0.113.7"; time_connected := Some 50; is_working := true;
     used_ssh_list := {[1; 2]}; proxy_address := "socks5://192.0.2.1:20000" |}.

(** One unassigned port (key 1) and one credential (key 7). *)
Definition small_db : Db :=
  {| ssh_table := {[7 := fresh_ssh "10.0.0.5"]};
     port_table := {[1 := fresh_port 20000]} |}.

(** [small_db] once a liveness check has found credential 7 alive. *)
Definition checked_db : Db := SSH_update_check_result (Some true) 20 7 small_db.

Definition checked_ssh : SSH :=
  {| ssh_last_checked := Some 20; ssh_last_modified := 20; ip := "10.0.0.5";
     username := "admin"; password := "admin"; ssh_port := 22;
     is_live := Some true |}.

End Models.

(* ===================================================================== *)
(** ** Configuration table *)
(* ===================================================================== *)

Module Config.

(** The values the table holds: [int], [bool] and [str]. *)
Inductive py_value :=
| VInt (n : Z)
| VBool (b : bool)
| VStr (s : string).

#[global] Instance py_value_eq_dec : EqDecision py_value.
Proof. solve_decision. Defined.

Inductive py_type := py_int | py_bool | py_str.

(** [type(v)]: the exact class, so [bool] for a boolean. *)
Definition type (v : py_value) : py_type :=
  match v with
  | VInt _ => py_int
  | VBool _ => py_bool
  | VStr _ => py_str
  end.

(** The [ConfigItem] dataclass; [description] holds the UTF-8 bytes of the
    text. *)
Record ConfigItem := {
  section : string;
  name : string;
  full_name : string;
  value : py_value;
  description : string;
  need_restart : bool
}.

Definition DEFAULT_CONFIG : list ConfigItem :=
  [ {| section := "SSH"; name := "tasks_count"; full_name := "ssh_tasks_count";
       value := VInt 50; description := "Số thread check fresh SSH";
       need_restart := false |};
    {| section := "SSH"; name := "auto_delete_died";
       full_name := "ssh_auto_delete_died"; value := VBool false;
       description := "Tự động xoá SSH die"; need_restart := false |};
    {| section := "SSH"; name := "test_timeout"; full_name := "ssh_test_timeout";
       value := VInt 60;
       description := "Số giây check live SSH tối đa (từ kết nối đến test IP)";
       need_restart := false |};
    {| section := "PORT"; name := "auto_replace_died_ssh";
       full_name := "port_auto_replace_died_ssh"; value := VBool true;
       description := "Tự động thay thế SSH die"; need_restart := false |};
    {| section := "PORT"; name := "use_unique_ssh"; full_name := "use_unique_ssh";
       value := VBool false;
       description := "Không dùng lại các SSH đã dùng ở mỗi Port";
       need_restart := false |};
    {| section := "PORT"; name := "auto_reset_ports"; full_name := "auto_reset_ports";
       value := VBool false;
       description := "Tự động đổi IP mỗi Port sau một thời gian nhất định";
       need_restart := false |};
    {| section := "PORT"; name := "reset_interval";
       full_name := "port_reset_interval"; value := VInt 60;
       description := "Thời gian reset IP từng port (đổi IP mỗi x giây)";
       need_restart := false |};
    {| section := "WEB"; name := "port"; full_name := "web_port";
       value := VInt 6080;
       description := "Port chạy web (truy cập web bằng link http://<ip>:<port>)";
       need_restart := true |};
    {| section := "SSHSTORE"; name := "enabled"; full_name := "sshstore_enabled";
       value := VBool false;
       description := "Tự động lấy SSH từ SSHStore (cần tạo account)";
       need_restart := false |};
    {| section := "SSHSTORE"; name := "api_key"; full_name := "sshstore_api_key";
       value := VStr EmptyString; description := "API key của SSHStore";
       need_restart := false |};
    {| section := "SSHSTORE"; name := "country"; full_name := "sshstore_country";
       value := VStr "All"; description := "Quốc gia lấy SSH từ SSHSTORE";
       need_restart := false |} ].

(** Lines 63-65: the dict filled by
    [PYDANTIC_ARGS[i.full_name] = (type(i.value), i.value)] over a table. *)
Definition pydantic_args (table : list ConfigItem) : gmap string (py_type * py_value) :=
  fold_left (fun args i => <[full_name i := (type (value i), value i)]> args) table ∅.

Definition PYDANTIC_ARGS : gmap string (py_type * py_value) :=
  pydantic_args DEFAULT_CONFIG.

(** What [get] does: it returns what [get_by_item] returned, or raises
    [RuntimeError]. *)
Inductive outcome (A : Type) :=
| Returned (a : A)
| RuntimeError (full_name : string).
Arguments Returned {A} a.
Arguments RuntimeError {A} full_name.

(** [get(full_name)] over a table.  [get_by_item], which reads the file on
    disk, is a parameter. *)
Definition get_in {A : Type} (table : list ConfigItem) (get_by_item : ConfigItem -> A)
    (key : string) : outcome A :=
  match List.find (fun item => String.eqb (full_name item) key) table with
  | Some item => Returned (get_by_item item)
  | None => RuntimeError key
  end.

Definition get {A : Type} (get_by_item : ConfigItem -> A) (key : string) : outcome A :=
  get_in DEFAULT_CONFIG get_by_item key.

End Config.

(* ===================================================================== *)
(** * Properties *)
(* ===================================================================== *)

Import SshControllers Models.

(** ** Algorithm negotiation profile *)

Section AlgsConfigFacts.
Import AlgsConfig.

Example split_keeps_empty_fields :
  Bytes.split comma "a,,b" = ["a"; EmptyString; "b"].
Proof. reflexivity. Qed.

Example replace_every_occurrence :
  Bytes.replace "ab" "-" "xabyabab" = "x-y--".
Proof. reflexivity. Qed.

Example encryption_algs_drop_3des_ctr (a : asyncssh_algs) :
  encryption_algs (get_algs_config a) =
  ["aes128-ctr"; "aes128-cbc"; "3des-cbc"; "blowfish-cbc";
   "aes192-ctr"; "aes192-cbc"; "aes256-ctr"; "aes256-cbc"].
Proof. reflexivity. Qed.

(** Whatever asyncssh offers, the key-exchange list is the JSCH one. *)
Lemma kex_algs_is_jsch (a : asyncssh_algs) :
  kex_algs (get_algs_config a) =
  ["ecdh-sha2-nistp256"; "ecdh-sha2-nistp384"; "ecdh-sha2-nistp521";
   "diffie-hellman-group14-sha1"; "diffie-hellman-group-exchange-sha256";
   "diffie-hellman-group-exchange-sha1"; "diffie-hellman-group1-sha1"].
Proof. reflexivity. Qed.

(** The removal of lines 31-32 does happen on the asyncssh list. *)
Lemma list_remove_drops_single (x : string) (l : list string) :
  NoDup l -> ~ In x (Bytes.list_remove x l).
Proof.
  induction 1 as [|y l Hy Hl IH]; simpl; [tauto|].
  destruct (String.eqb_spec y x) as [->|Hne].
  - intros Hin. apply Hy. by apply list_elem_of_In.
  - simpl. intros [?|?]; [congruence|tauto].
Qed.

(** C10 (as the code has it): the key-exchange list that [get_algs_config]
    returns contains ecdh-sha2-nistp521, for every list asyncssh offers: the
    JSCH list assigned at line 38 replaces the list from which lines 31-32
    removed it. *)
Theorem get_algs_config_offers_nistp521 (a : asyncssh_algs) :
  In "ecdh-sha2-nistp521" (kex_algs (get_algs_config a)).
Proof. rewrite kex_algs_is_jsch. simpl. tauto. Qed.

End AlgsConfigFacts.

(** ** Tunnel session manager *)

Section SshControllersFacts.
Context (env : environment).

(** *** The registry as a list *)

Lemma find_none_sessions_on (port : Z) (st : state) :
  List.find (fun proxy => ProxyInfo.port proxy =? port) (proxies st) = None <->
  sessions_on port st = [].
Proof.
  unfold sessions_on. induction (proxies st) as [|x l IH]; simpl; [tauto|].
  destruct (ProxyInfo.port x =? port); [split; discriminate|exact IH].
Qed.

Lemma remove_first_ports (x : ProxyInfo.t) (l : list ProxyInfo.t) :
  In x l ->
  map ProxyInfo.port l ≡ₚ ProxyInfo.port x :: map ProxyInfo.port (remove_first x l).
Proof.
  induction l as [|y l IH]; simpl; [tauto|].
  intros Hin. destruct (decide (y = x)) as [->|Hne]; [reflexivity|].
  destruct Hin as [?|Hin]; [congruence|].
  simpl. rewrite (IH Hin). apply perm_swap.
Qed.

Lemma remove_first_NoDup (x : ProxyInfo.t) (l : list ProxyInfo.t) :
  In x l -> NoDup (map ProxyInfo.port l) ->
  NoDup (map ProxyInfo.port (remove_first x l)) /\
  ProxyInfo.port x ∉ map ProxyInfo.port (remove_first x l).
Proof.
  intros Hin Hnd. rewrite (remove_first_ports x l Hin) in Hnd.
  apply NoDup_cons in Hnd. tauto.
Qed.

Lemma filter_port_nil (port : Z) (l : list ProxyInfo.t) :
  port ∉ map ProxyInfo.port l ->
  List.filter (fun proxy => ProxyInfo.port proxy =? port) l = [].
Proof.
  induction l as [|y l IH]; simpl; [done|].
  intros Hn. apply not_elem_of_cons in Hn as [Hne Hn].
  destruct (Z.eqb_spec (ProxyInfo.port y) port); [congruence|auto].
Qed.

(** *** Calls that leave the module *)

Lemma kill_ssh_connection_eq (c : SSHClientConnection) (st : state) :
  kill_ssh_connection c st =
  (Return tt, {| proxies := proxies st; trace := KillSshConnection c :: trace st |}).
Proof. reflexivity. Qed.

(** *** [kill_proxy_on_port] *)

Lemma kill_proxy_on_port_found (port : Z) (st : state) (proxy : ProxyInfo.t) :
  List.find (fun proxy => ProxyInfo.port proxy =? port) (proxies st) = Some proxy ->
  kill_proxy_on_port port st =
  (Return tt, {| proxies := remove_first proxy (proxies st);
                 trace := KillSshConnection (ProxyInfo.connection proxy) :: trace st |}).
Proof. intros H. unfold kill_proxy_on_port. unfold_M. by rewrite H. Qed.

Lemma kill_proxy_on_port_absent (port : Z) (st : state) :
  List.find (fun proxy => ProxyInfo.port proxy =? port) (proxies st) = None ->
  kill_proxy_on_port port st = (Raise (SSHError (NoProxyOnPort port)), st).
Proof. intros H. unfold kill_proxy_on_port. unfold_M. by rewrite H. Qed.

Lemma kill_proxy_on_port_invariant (port : Z) (st : state) :
  one_session_per_port st ->
  one_session_per_port (snd (kill_proxy_on_port port st)) /\
  sessions_on port (snd (kill_proxy_on_port port st)) = [].
Proof.
  unfold one_session_per_port. intros Hnd.
  destruct (List.find (fun proxy => ProxyInfo.port proxy =? port) (proxies st))
    as [proxy|] eqn:Hfind.
  - rewrite (kill_proxy_on_port_found _ _ _ Hfind). simpl.
    apply find_some in Hfind as [Hin Hport]. apply Z.eqb_eq in Hport.
    destruct (remove_first_NoDup proxy _ Hin Hnd) as [Hnd' Hnot].
    split; [done|]. unfold sessions_on. simpl.
    apply filter_port_nil. by rewrite <- Hport.
  - rewrite (kill_proxy_on_port_absent _ _ Hfind). simpl.
    split; [done|]. by apply find_none_sessions_on.
Qed.

(** *** [prepare] *)

Lemma prepare_returns (port : option Z) (st : state) :
  exists p st0,
    prepare env port st = (Return p, st0) /\
    (not_port port = false -> port = Some p) /\
    (exists evs, trace st0 = evs ++ trace st /\ connection_attempts evs = 0%nat) /\
    (one_session_per_port st -> one_session_per_port st0 /\ sessions_on p st0 = []).
Proof.
  unfold prepare, get_free_port. unfold_M.
  destruct (not_port port) eqn:Hnp; simpl.
  - set (st_a := {| proxies := proxies st; trace := GetFreePort :: trace st |}).
    set (p := free_port env (GetFreePort :: trace st)).
    pose proof (kill_proxy_on_port_invariant p st_a) as Hinv.
    destruct (List.find (fun proxy => ProxyInfo.port proxy =? p) (proxies st_a))
      as [proxy|] eqn:Hfind.
    + rewrite (kill_proxy_on_port_found _ _ _ Hfind) in Hinv |- *.
      eexists _, _. split; [reflexivity|]. split; [done|]. split.
      * exists [KillSshConnection (ProxyInfo.connection proxy); GetFreePort]. done.
      * intros Hnd. by apply Hinv.
    + rewrite (kill_proxy_on_port_absent _ _ Hfind) in Hinv |- *.
      eexists _, _. split; [reflexivity|]. split; [done|]. split.
      * exists [GetFreePort]. done.
      * intros Hnd. by apply Hinv.
  - destruct port as [p|]; [|done]. simpl.
    pose proof (kill_proxy_on_port_invariant p st) as Hinv.
    destruct (List.find (fun proxy => ProxyInfo.port proxy =? p) (proxies st))
      as [proxy|] eqn:Hfind.
    + rewrite (kill_proxy_on_port_found _ _ _ Hfind) in Hinv |- *.
      eexists _, _. split; [reflexivity|]. split; [done|]. split.
      * exists [KillSshConnection (ProxyInfo.connection proxy)]. done.
      * intros Hnd. by apply Hinv.
    + rewrite (kill_proxy_on_port_absent _ _ Hfind) in Hinv |- *.
      eexists _, _. split; [reflexivity|]. split; [done|]. split.
      * by exists [].
      * intros Hnd. by apply Hinv.
Qed.


(** *** [open_tunnel] *)

Lemma open_tunnel_cases (host username password : string) (port ssh_port : Z)
    (st : state) :
  let run := open_tunnel env host username password port ssh_port st in
  let tr1 := Connect host username password ssh_port :: trace st in
  match connect_outcome env tr1 with
  | inl e => run = (Raise (LibraryException e), {| proxies := proxies st; trace := tr1 |})
  | inr c =>
      let tr2 := ForwardSocks c port :: tr1 in
      match forward_socks_outcome env tr2 with
      | Some e =>
          run = (Raise (LibraryException e), {| proxies := proxies st; trace := tr2 |})
      | None =>
          let tr3 := GetProxyIp (ProxyInfo.address (ProxyInfo.new port c)) :: tr2 in
          if Bytes.truthy (proxy_ip env tr3)
          then run = (Return (ProxyInfo.new port c),
                      {| proxies := proxies st; trace := tr3 |})
          else run = (Raise (SSHError CannotConnectToForwardedProxy),
                      {| proxies := proxies st; trace := KillSshConnection c :: tr3 |})
      end
  end.
Proof.
  unfold open_tunnel, asyncssh_connect, forward_socks, get_proxy_ip,
    kill_ssh_connection. unfold_M. simpl.
  destruct (connect_outcome env _) as [e|c]; simpl; [done|].
  destruct (forward_socks_outcome env _) as [e|]; simpl; [done|].
  destruct (Bytes.truthy _); done.
Qed.

Lemma open_tunnel_effects (host username password : string) (port ssh_port : Z)
    (st st1 : state) (r : result ProxyInfo.t) :
  open_tunnel env host username password port ssh_port st = (r, st1) ->
  proxies st1 = proxies st /\
  exists evs, trace st1 = evs ++ trace st /\
              connection_attempts evs = 1%nat /\
              same_parameters host username password ssh_port evs.
Proof.
  pose proof (open_tunnel_cases host username password port ssh_port st) as H.
  simpl in H. intros Hrun. rewrite Hrun in H.
  assert (Hsame : forall evs : list event,
             (forall ev, In ev evs ->
                ev = Connect host username password ssh_port \/ is_connect ev = false) ->
             same_parameters host username password ssh_port evs).
  { intros evs Hevs ev Hin Hc. destruct (Hevs ev Hin); congruence. }
  destruct (connect_outcome env _) as [e|c].
  { inversion H; subst. split; [done|].
    exists [Connect host username password ssh_port]. repeat split; [].
    apply Hsame. simpl. intuition. }
  destruct (forward_socks_outcome env _) as [e|].
  { inversion H; subst. split; [done|].
    exists [ForwardSocks c port; Connect host username password ssh_port].
    repeat split; []. apply Hsame. simpl. intuition (subst; auto). }
  destruct (Bytes.truthy _).
  - inversion H; subst. split; [done|].
    exists [GetProxyIp (ProxyInfo.address (ProxyInfo.new port c));
            ForwardSocks c port; Connect host username password ssh_port].
    repeat split; []. apply Hsame. simpl. intuition (subst; auto).
  - inversion H; subst. split; [done|].
    exists [KillSshConnection c;
            GetProxyIp (ProxyInfo.address (ProxyInfo.new port c));
            ForwardSocks c port; Connect host username password ssh_port].
    repeat split; []. apply Hsame. simpl. intuition (subst; auto).
Qed.

Lemma open_tunnel_returned (host username password : string) (port ssh_port : Z)
    (st st1 : state) (proxy_info : ProxyInfo.t) :
  open_tunnel env host username password port ssh_port st = (Return proxy_info, st1) ->
  ProxyInfo.port proxy_info = port /\
  established env host username password ssh_port (trace st1) proxy_info.
Proof.
  pose proof (open_tunnel_cases host username password port ssh_port st) as H.
  simpl in H. intros Hrun. rewrite Hrun in H.
  destruct (connect_outcome env _) as [e|c] eqn:Hc; [done|].
  destruct (forward_socks_outcome env _) as [e|] eqn:Hf; [done|].
  destruct (Bytes.truthy _) eqn:Hip; [|done].
  inversion H; subst. split; [done|].
  exists (trace st). simpl. done.
Qed.

Lemma open_tunnel_raised_SSHError (host username password : string)
    (port ssh_port : Z) (st st1 : state) (m : ssh_error_message) :
  open_tunnel env host username password port ssh_port st = (Raise (SSHError m), st1) ->
  m = CannotConnectToForwardedProxy /\
  exists c tr, trace st1 = KillSshConnection c :: GetProxyIp (ProxyInfo.address (ProxyInfo.new port c)) :: tr /\
               proxy_ip env (GetProxyIp (ProxyInfo.address (ProxyInfo.new port c)) :: tr) = EmptyString.
Proof.
  pose proof (open_tunnel_cases host username password port ssh_port st) as H.
  simpl in H. intros Hrun. rewrite Hrun in H.
  destruct (connect_outcome env _) as [e|c] eqn:Hc; [done|].
  destruct (forward_socks_outcome env _) as [e|] eqn:Hf; [done|].
  destruct (Bytes.truthy _) eqn:Hip; [done|].
  inversion H; subst. split; [done|].
  eexists _, _. split; [reflexivity|].
  by destruct (proxy_ip env _).
Qed.

(** *** One activation of [connect_ssh] *)

Lemma connect_ssh_body_unfold (again : option (Z -> M ProxyInfo.t))
    (host username password : string) (port : option Z) (ssh_port : Z)
    (st st0 : state) (p : Z) :
  prepare env port st = (Return p, st0) ->
  connect_ssh_body env again host username password port ssh_port st =
  match open_tunnel env host username password p ssh_port st0 with
  | (Return proxy_info, st1) =>
      (Return proxy_info,
       {| proxies := proxies st1 ++ [proxy_info]; trace := trace st1 |})
  | (Raise (LibraryException e), st1) =>
      if is_OSError env e then
        match again with
        | Some connect_ssh => connect_ssh p st1
        | None => (Raise (SSHError (Wrapped e)), st1)
        end
      else if is_asyncssh_Error_or_TimeoutError e
           then (Raise (SSHError (Wrapped e)), st1)
           else (Raise (LibraryException e), st1)
  | (Raise (SSHError m), st1) => (Raise (SSHError m), st1)
  end.
Proof.
  intros Hprep. unfold connect_ssh_body. unfold_M. rewrite Hprep.
  destruct (open_tunnel env host username password p ssh_port st0)
    as [[proxy_info|[e|m]] st1]; [done| |done].
  destruct (is_OSError env e).
  - destruct again as [k|]; [|done]. by destruct (k p st1) as [[?|?] ?].
  - by destruct (is_asyncssh_Error_or_TimeoutError e).
Qed.

(** The recursion of line 123, as the source writes it. *)
Lemma connect_ssh_unfold (host username password : string) (port : option Z)
    (ssh_port retry : Z) :
  connect_ssh env host username password port ssh_port retry =
  connect_ssh_body env
    (if 0 <? retry
     then Some (fun port' =>
                  connect_ssh env host username password (Some port') ssh_port (retry - 1))
     else None)
    host username password port ssh_port.
Proof.
  unfold connect_ssh. destruct (Z.ltb_spec 0 retry) as [Hpos|Hneg].
  - replace (Z.to_nat retry) with (S (Z.to_nat (retry - 1))) by lia. reflexivity.
  - replace (Z.to_nat retry) with O by lia. reflexivity.
Qed.


(** *** The retry loop *)

Lemma connection_attempts_app (evs1 evs2 : list event) :
  connection_attempts (evs1 ++ evs2) =
  (connection_attempts evs1 + connection_attempts evs2)%nat.
Proof. unfold connection_attempts. by rewrite List.filter_app, length_app. Qed.

Lemma connection_attempts_connect (host username password : string)
    (ssh_port : Z) (tr : list event) :
  connection_attempts (Connect host username password ssh_port :: tr) =
  S (connection_attempts tr).
Proof. reflexivity. Qed.

Lemma same_parameters_app (host username password : string) (ssh_port : Z)
    (evs1 evs2 : list event) :
  same_parameters host username password ssh_port evs1 ->
  same_parameters host username password ssh_port evs2 ->
  same_parameters host username password ssh_port (evs1 ++ evs2).
Proof.
  intros H1 H2 ev Hin. apply in_app_or in Hin as [Hin|Hin]; [by apply H1|by apply H2].
Qed.

Lemma same_parameters_quiet (host username password : string) (ssh_port : Z)
    (evs : list event) :
  connection_attempts evs = 0%nat ->
  same_parameters host username password ssh_port evs.
Proof.
  unfold connection_attempts. intros Hlen ev Hin Hc.
  apply length_zero_iff_nil in Hlen.
  assert (Hin' : In ev (List.filter is_connect evs)) by (apply filter_In; done).
  rewrite Hlen in Hin'. destruct Hin'.
Qed.

Lemma sessions_on_nil (port : Z) (st : state) :
  sessions_on port st = [] <-> port ∉ map ProxyInfo.port (proxies st).
Proof.
  split; [|apply filter_port_nil].
  unfold sessions_on. induction (proxies st) as [|y l IH]; simpl.
  - intros _. apply not_elem_of_nil.
  - destruct (Z.eqb_spec (ProxyInfo.port y) port) as [Heq|Hne]; [done|].
    intros Hnil. apply not_elem_of_cons. auto.
Qed.

Lemma append_keeps_one_session_per_port (st0 : state) (tr : list event)
    (proxy_info : ProxyInfo.t) :
  one_session_per_port st0 ->
  sessions_on (ProxyInfo.port proxy_info) st0 = [] ->
  let st' := {| proxies := proxies st0 ++ [proxy_info]; trace := tr |} in
  one_session_per_port st' /\
  sessions_on (ProxyInfo.port proxy_info) st' = [proxy_info].
Proof.
  unfold one_session_per_port. intros Hnd Hnil. simpl. split.
  - rewrite map_app. simpl. apply NoDup_app. split; [done|]. split.
    + intros x Hx Hx'. apply list_elem_of_singleton in Hx'. subst x.
      by apply sessions_on_nil in Hnil.
    + apply NoDup_singleton.
  - unfold sessions_on in *. simpl. rewrite List.filter_app, Hnil. simpl.
    by rewrite Z.eqb_refl.
Qed.

(** How one activation of [connect_ssh] ends: after exactly one handshake,
    with the registry free of sessions on the port, it either hands over to
    the recursive call or finishes in one of four ways. *)
Lemma one_activation (again : option (Z -> M ProxyInfo.t))
    (host username password : string) (port : option Z) (ssh_port : Z)
    (st st' : state) (r : result ProxyInfo.t) :
  connect_ssh_body env again host username password port ssh_port st = (r, st') ->
  exists (p : Z) (st1 : state) (evs : list event),
    trace st1 = evs ++ trace st /\
    connection_attempts evs = 1%nat /\
    same_parameters host username password ssh_port evs /\
    (one_session_per_port st -> one_session_per_port st1 /\ sessions_on p st1 = []) /\
    ((exists connect_ssh e,
         again = Some connect_ssh /\ is_OSError env e = true /\
         connect_ssh p st1 = (r, st')) \/
     (exists proxy_info,
         r = Return proxy_info /\
         st' = {| proxies := proxies st1 ++ [proxy_info]; trace := trace st1 |} /\
         ProxyInfo.port proxy_info = p /\
         established env host username password ssh_port (trace st1) proxy_info) \/
     (exists m, r = Raise (SSHError m) /\ st' = st1) \/
     (exists e, r = Raise (LibraryException e) /\ st' = st1 /\
                is_OSError env e = false /\
                is_asyncssh_Error_or_TimeoutError e = false)).
Proof.
  intros Hrun.
  destruct (prepare_returns port st)
    as (p & st0 & Hprep & _ & (evs0 & Htr0 & Hquiet0) & Hinv0).
  rewrite (connect_ssh_body_unfold _ _ _ _ _ _ _ _ _ Hprep) in Hrun.
  destruct (open_tunnel env host username password p ssh_port st0)
    as [r1 st1] eqn:Htunnel.
  destruct (open_tunnel_effects _ _ _ _ _ _ _ _ Htunnel)
    as (Hproxies & evs1 & Htr1 & Hone & Hsame1).
  exists p, st1, (evs1 ++ evs0).
  split; [by rewrite Htr1, Htr0, app_assoc|].
  split; [rewrite connection_attempts_app; lia|].
  split; [apply same_parameters_app; [done|by apply same_parameters_quiet]|].
  split.
  { unfold one_session_per_port, sessions_on in *. rewrite Hproxies. done. }
  destruct r1 as [proxy_info|[e|m]].
  - right; left. exists proxy_info.
    destruct (open_tunnel_returned _ _ _ _ _ _ _ _ Htunnel) as [Hport Hest].
    inversion Hrun; subst. done.
  - destruct (is_OSError env e) eqn:Hos.
    + destruct again as [k|].
      * left. by exists k, e.
      * right; right; left. exists (Wrapped e). by inversion Hrun.
    + destruct (is_asyncssh_Error_or_TimeoutError e) eqn:Hssh.
      * right; right; left. exists (Wrapped e). by inversion Hrun.
      * right; right; right. exists e. by inversion Hrun.
  - right; right; left. exists m. by inversion Hrun.
Qed.

(** What a call of [connect_ssh] with [n] retries left does: between one and
    [n + 1] handshakes, all with the arguments of the call; the registry keeps
    one session per port; a returned session is established and is the one
    registered on its port; an exception that is not an [SSHError] is of a
    class no handler names. *)
Lemma connect_ssh_retries_effects (host username password : string)
    (ssh_port : Z) (n : nat) :
  forall (port : option Z) (st st' : state) (r : result ProxyInfo.t),
    connect_ssh_retries env n host username password port ssh_port st = (r, st') ->
    (exists evs, trace st' = evs ++ trace st /\
                 (1 <= connection_attempts evs <= S n)%nat /\
                 same_parameters host username password ssh_port evs) /\
    (one_session_per_port st -> one_session_per_port st') /\
    match r with
    | Return proxy_info =>
        established env host username password ssh_port (trace st') proxy_info /\
        In proxy_info (proxies st') /\
        (one_session_per_port st ->
         sessions_on (ProxyInfo.port proxy_info) st' = [proxy_info])
    | Raise (SSHError m) => True
    | Raise (LibraryException e) =>
        is_OSError env e = false /\ is_asyncssh_Error_or_TimeoutError e = false
    end.
Proof.
  assert (Hfinished : forall (k : nat) (st st1 st' : state) (r : result ProxyInfo.t)
                             (p : Z) (evs1 : list event),
    trace st1 = evs1 ++ trace st ->
    connection_attempts evs1 = 1%nat ->
    same_parameters host username password ssh_port evs1 ->
    (one_session_per_port st -> one_session_per_port st1 /\ sessions_on p st1 = []) ->
    ((exists proxy_info,
         r = Return proxy_info /\
         st' = {| proxies := proxies st1 ++ [proxy_info]; trace := trace st1 |} /\
         ProxyInfo.port proxy_info = p /\
         established env host username password ssh_port (trace st1) proxy_info) \/
     (exists m, r = Raise (SSHError m) /\ st' = st1) \/
     (exists e, r = Raise (LibraryException e) /\ st' = st1 /\
                is_OSError env e = false /\
                is_asyncssh_Error_or_TimeoutError e = false)) ->
    (exists evs, trace st' = evs ++ trace st /\
                 (1 <= connection_attempts evs <= S k)%nat /\
                 same_parameters host username password ssh_port evs) /\
    (one_session_per_port st -> one_session_per_port st') /\
    match r with
    | Return proxy_info =>
        established env host username password ssh_port (trace st') proxy_info /\
        In proxy_info (proxies st') /\
        (one_session_per_port st ->
         sessions_on (ProxyInfo.port proxy_info) st' = [proxy_info])
    | Raise (SSHError m) => True
    | Raise (LibraryException e) =>
        is_OSError env e = false /\ is_asyncssh_Error_or_TimeoutError e = false
    end).
  { intros k st st1 st' r p evs1 Htr1 Hone Hsame1 Hinv1 Hend.
    destruct Hend as [(proxy_info & -> & -> & Hport & Hest)
                     |[(m & -> & ->)|(e & -> & -> & Hos & Hssh)]].
    - assert (Hkeep : one_session_per_port st ->
                one_session_per_port
                  {| proxies := proxies st1 ++ [proxy_info]; trace := trace st1 |} /\
                sessions_on (ProxyInfo.port proxy_info)
                  {| proxies := proxies st1 ++ [proxy_info]; trace := trace st1 |}
                = [proxy_info]).
      { intros Hnd. destruct (Hinv1 Hnd) as [Hnd1 Hnil]. rewrite <- Hport in Hnil.
        by apply (append_keeps_one_session_per_port st1 (trace st1) proxy_info). }
      split; [exists evs1; simpl; split; [done|split; [lia|done]]|].
      split; [intros Hnd; by apply Hkeep|].
      split; [done|]. split; [simpl; apply in_or_app; right; by left|].
      intros Hnd. by apply Hkeep.
    - split; [exists evs1; split; [done|split; [lia|done]]|].
      split; [intros Hnd; by apply Hinv1|done].
    - split; [exists evs1; split; [done|split; [lia|done]]|].
      split; [intros Hnd; by apply Hinv1|done]. }
  induction n as [|n IH]; intros port st st' r Hrun; simpl in Hrun;
    apply one_activation in Hrun
      as (p & st1 & evs1 & Htr1 & Hone & Hsame1 & Hinv1 & Hend);
    destruct Hend as [(k & e & Hagain & Hos & Hrec)|Hend];
    [discriminate Hagain|by eapply Hfinished| |by eapply Hfinished].
  inversion Hagain; subst k; clear Hagain.
  destruct (IH (Some p) st1 st' r Hrec)
    as ((evs & Htr & Hbound & Hsame') & Hinv' & Hres).
  split; [|split].
  - exists (evs ++ evs1). split; [by rewrite Htr, Htr1, app_assoc|].
    split; [rewrite connection_attempts_app; lia|].
    by apply same_parameters_app.
  - intros Hnd. apply Hinv'. by apply Hinv1.
  - destruct r as [proxy_info|[e'|m']]; [|done|done].
    destruct Hres as (Hest & Hin & Hsess). repeat split; [done|done|].
    intros Hnd. apply Hsess. by apply Hinv1.
Qed.


(** *** Retry policy *)

(** C1 (amended): when the attempt of a [connect_ssh] call fails with an
    exception that is an [OSError] (connection refused, network unreachable,
    a timeout of the operating system; the 30 second connect timeout and the
    asyncssh errors derived from [asyncio.TimeoutError] only where the
    interpreter makes that class an [OSError]) and [retry] is positive, the
    call continues as [connect_ssh] with the same host, user, password, SSH
    port and forwarded port and with [retry - 1]; when [retry] is used up it
    raises an [SSHError] wrapping that last exception.  When the attempt
    fails with an exception that is an [asyncssh.Error] or an
    [asyncio.TimeoutError] and not an [OSError] (a handshake or
    authentication failure, and the connect timeout where it is not an
    [OSError]) the call raises an [SSHError] wrapping it at once, whatever
    [retry] is.  Altogether a call makes at least one and at most
    [retry + 1] handshakes, each with the arguments of the call. *)
Theorem connect_ssh_retry_policy (host username password : string)
    (port : option Z) (ssh_port retry : Z) (st st0 st1 : state) (p : Z)
    (e : library_exception) :
  prepare env port st = (Return p, st0) ->
  open_tunnel env host username password p ssh_port st0
    = (Raise (LibraryException e), st1) ->
  (is_OSError env e = true ->
     (0 < retry ->
        connect_ssh env host username password port ssh_port retry st
        = connect_ssh env host username password (Some p) ssh_port (retry - 1) st1) /\
     (retry <= 0 ->
        connect_ssh env host username password port ssh_port retry st
        = (Raise (SSHError (Wrapped e)), st1))) /\
  (is_OSError env e = false ->
   is_asyncssh_Error_or_TimeoutError e = true ->
     connect_ssh env host username password port ssh_port retry st
     = (Raise (SSHError (Wrapped e)), st1)) /\
  (forall r st',
     connect_ssh env host username password port ssh_port retry st = (r, st') ->
     exists evs, trace st' = evs ++ trace st /\
                 (1 <= connection_attempts evs <= S (Z.to_nat retry))%nat /\
                 same_parameters host username password ssh_port evs).
Proof.
  intros Hprep Htunnel.
  assert (Hbody :
    connect_ssh env host username password port ssh_port retry st =
    if is_OSError env e then
      if 0 <? retry
      then connect_ssh env host username password (Some p) ssh_port (retry - 1) st1
      else (Raise (SSHError (Wrapped e)), st1)
    else if is_asyncssh_Error_or_TimeoutError e
         then (Raise (SSHError (Wrapped e)), st1)
         else (Raise (LibraryException e), st1)).
  { rewrite connect_ssh_unfold, (connect_ssh_body_unfold _ _ _ _ _ _ _ _ _ Hprep),
      Htunnel.
    by destruct (is_OSError env e), (0 <? retry). }
  split; [|split].
  - intros Hos. rewrite Hbody, Hos. split; intros Hretry.
    + by destruct (Z.ltb_spec 0 retry); [|lia].
    + by destruct (Z.ltb_spec 0 retry); [lia|].
  - intros Hos Hssh. by rewrite Hbody, Hos, Hssh.
  - intros r st' Hrun. unfold connect_ssh in Hrun.
    by destruct (connect_ssh_retries_effects _ _ _ _ _ _ _ _ _ Hrun) as [? _].
Qed.

(** Which exceptions the [except OSError] clause takes. *)
Lemma is_OSError_classes (name : string) :
  is_OSError env (OSError name) = true /\
  is_OSError env (AsyncsshError name) = false /\
  is_OSError env AsyncioTimeoutError = asyncio_timeout_is_oserror env /\
  is_OSError env AsyncsshTimeoutError = asyncio_timeout_is_oserror env /\
  is_OSError env (OtherException name) = false.
Proof. done. Qed.

(** C3: against an endpoint that refuses every connection, [connect_ssh] with
    [retry = N] raises [SSHError] (wrapping the refusal) after exactly [N + 1]
    calls of [asyncssh.connect]. *)
Theorem connect_ssh_retry_bound (host username password : string)
    (port : option Z) (ssh_port : Z) (N : nat) (st : state) (name : string) :
  (forall tr, connect_outcome env (Connect host username password ssh_port :: tr)
              = inl (OSError name)) ->
  exists st',
    connect_ssh env host username password port ssh_port (Z.of_nat N) st
    = (Raise (SSHError (Wrapped (OSError name))), st') /\
    connection_attempts (trace st')
    = (connection_attempts (trace st) + (N + 1))%nat.
Proof.
  intros Hrefused. unfold connect_ssh. rewrite Nat2Z.id.
  revert port st. induction N as [|N IH]; intros port st;
    destruct (prepare_returns port st)
      as (p & st0 & Hprep & _ & (evs0 & Htr0 & Hquiet0) & _);
    pose proof (open_tunnel_cases host username password p ssh_port st0) as Htunnel;
    cbv zeta in Htunnel; rewrite Hrefused in Htunnel;
    cbn [connect_ssh_retries];
    rewrite (connect_ssh_body_unfold _ _ _ _ _ _ _ _ _ Hprep), Htunnel;
    cbn [is_OSError].
  - eexists. split; [reflexivity|]. cbn [trace].
    rewrite connection_attempts_connect, Htr0, connection_attempts_app, Hquiet0.
    lia.
  - destruct (IH (Some p) {| proxies := proxies st0;
                            trace := Connect host username password ssh_port :: trace st0 |})
      as (st' & Hrun & Hcount).
    exists st'. split; [done|]. rewrite Hcount. cbn [trace].
    rewrite connection_attempts_connect, Htr0, connection_attempts_app, Hquiet0.
    lia.
Qed.

(** The 30 second connect timeout raises [asyncio.TimeoutError]: it is retried
    where the interpreter makes that class an [OSError], and ends the call at
    once where it does not. *)
Lemma connect_ssh_asyncio_timeout (host username password : string)
    (port : option Z) (ssh_port retry : Z) (st st0 st1 : state) (p : Z) :
  prepare env port st = (Return p, st0) ->
  open_tunnel env host username password p ssh_port st0
    = (Raise (LibraryException AsyncioTimeoutError), st1) ->
  connect_ssh env host username password port ssh_port retry st =
  if asyncio_timeout_is_oserror env && (0 <? retry)
  then connect_ssh env host username password (Some p) ssh_port (retry - 1) st1
  else (Raise (SSHError (Wrapped AsyncioTimeoutError)), st1).
Proof.
  intros Hprep Htunnel.
  rewrite connect_ssh_unfold, (connect_ssh_body_unfold _ _ _ _ _ _ _ _ _ Hprep),
    Htunnel.
  unfold is_OSError, is_asyncssh_Error_or_TimeoutError. simpl.
  destruct (asyncio_timeout_is_oserror env), (0 <? retry); reflexivity.
Qed.

(** *** [verify_ssh] *)

Lemma verify_ssh_unfold (host username password : string) (ssh_port : Z)
    (st : state) :
  verify_ssh env host username password ssh_port st =
  match connect_ssh env host username password None ssh_port 3 st with
  | (Return proxy_info, st1) =>
      (Return true,
       {| proxies := proxies st1;
          trace := KillSshConnection (ProxyInfo.connection proxy_info) :: trace st1 |})
  | (Raise (SSHError m), st1) => (Return false, st1)
  | (Raise (LibraryException e), st1) => (Raise (LibraryException e), st1)
  end.
Proof.
  unfold verify_ssh, kill_ssh_connection. unfold_M.
  by destruct (connect_ssh env host username password None ssh_port 3 st)
    as [[proxy_info|[e|m]] st1].
Qed.

(** C8 (amended): [verify_ssh] returns true exactly when [connect_ssh]
    returned a session, which is then established (tunnel open, IP lookup
    non-empty); it returns false exactly when [connect_ssh] raised an
    [SSHError]; and it raises only an exception of a class that no handler of
    [connect_ssh] names, which it lets through unchanged. *)
Theorem verify_ssh_outcome (host username password : string) (ssh_port : Z)
    (st : state) :
  match connect_ssh env host username password None ssh_port 3 st with
  | (Return proxy_info, st1) =>
      established env host username password ssh_port (trace st1) proxy_info /\
      verify_ssh env host username password ssh_port st
      = (Return true,
         {| proxies := proxies st1;
            trace := KillSshConnection (ProxyInfo.connection proxy_info) :: trace st1 |})
  | (Raise (SSHError m), st1) =>
      verify_ssh env host username password ssh_port st = (Return false, st1)
  | (Raise (LibraryException e), st1) =>
      is_OSError env e = false /\
      is_asyncssh_Error_or_TimeoutError e = false /\
      verify_ssh env host username password ssh_port st
      = (Raise (LibraryException e), st1)
  end.
Proof.
  rewrite verify_ssh_unfold.
  destruct (connect_ssh env host username password None ssh_port 3 st)
    as [r st1] eqn:Hrun.
  unfold connect_ssh in Hrun.
  destruct (connect_ssh_retries_effects _ _ _ _ _ _ _ _ _ Hrun) as (_ & _ & Hres).
  destruct r as [proxy_info|[e|m]].
  - by destruct Hres as [Hest _].
  - by destruct Hres as [Hos Hssh].
  - done.
Qed.

(** After [verify_ssh] returned true the session it closed is still in
    [proxies]. *)
Lemma verify_ssh_true_keeps_session (host username password : string)
    (ssh_port : Z) (st st' : state) :
  verify_ssh env host username password ssh_port st = (Return true, st') ->
  exists proxy_info tr,
    In proxy_info (proxies st') /\
    trace st' = KillSshConnection (ProxyInfo.connection proxy_info) :: tr /\
    (one_session_per_port st ->
     sessions_on (ProxyInfo.port proxy_info) st' = [proxy_info]).
Proof.
  rewrite verify_ssh_unfold.
  destruct (connect_ssh env host username password None ssh_port 3 st)
    as [r st1] eqn:Hrun.
  unfold connect_ssh in Hrun.
  destruct (connect_ssh_retries_effects _ _ _ _ _ _ _ _ _ Hrun) as (_ & _ & Hres).
  destruct r as [proxy_info|[e|m]]; [|done|done].
  intros [= <-]. destruct Hres as (_ & Hin & Hsess).
  by exists proxy_info, (trace st1).
Qed.

(** A failed [connect_ssh] leaves no session on the port it was forwarding. *)
Lemma connect_ssh_failure_frees_port (host username password : string)
    (ssh_port : Z) (n : nat) :
  forall (port : option Z) (st st0 st' : state) (p : Z) (e : exception),
    prepare env port st = (Return p, st0) ->
    p <> 0 ->
    one_session_per_port st ->
    connect_ssh_retries env n host username password port ssh_port st = (Raise e, st') ->
    sessions_on p st' = [].
Proof.
  induction n as [|n IH]; intros port st st0 st' p e Hprep Hp Hnd Hrun;
    destruct (prepare_returns port st) as (p' & st0' & Hprep' & _ & _ & Hinv);
    rewrite Hprep in Hprep'; inversion Hprep'; subst p' st0'; clear Hprep';
    destruct (Hinv Hnd) as [Hnd0 Hnil0];
    cbn [connect_ssh_retries] in Hrun;
    rewrite (connect_ssh_body_unfold _ _ _ _ _ _ _ _ _ Hprep) in Hrun;
    destruct (open_tunnel env host username password p ssh_port st0)
      as [r1 st1] eqn:Htunnel;
    destruct (open_tunnel_effects _ _ _ _ _ _ _ _ Htunnel) as (Hproxies & _);
    assert (Hnil1 : sessions_on p st1 = [])
      by (unfold sessions_on in *; by rewrite Hproxies);
    assert (Hnd1 : one_session_per_port st1)
      by (unfold one_session_per_port in *; by rewrite Hproxies);
    (destruct r1 as [proxy_info|[e1|m]]; [done| |by inversion Hrun; subst]);
    (destruct (is_OSError env e1);
     [|destruct (is_asyncssh_Error_or_TimeoutError e1); by inversion Hrun; subst]).
  - by inversion Hrun; subst.
  - destruct (prepare_returns (Some p) st1) as (p' & st2 & Hprep1 & Hsame & _).
    assert (Hnp : not_port (Some p) = false) by (simpl; by apply Z.eqb_neq).
    specialize (Hsame Hnp). inversion Hsame; subst p'.
    by apply (IH (Some p) st1 st2 st' p e).
Qed.

Lemma prepare_None (st : state) :
  exists st0,
    prepare env None st = (Return (free_port env (GetFreePort :: trace st)), st0).
Proof.
  unfold prepare, get_free_port, kill_proxy_on_port, kill_ssh_connection.
  unfold_M. simpl.
  destruct (List.find _ (proxies st)); simpl; eauto.
Qed.

(** When [verify_ssh] returns false no session is registered on the port it
    tried. *)
Lemma verify_ssh_false_frees_port (host username password : string)
    (ssh_port : Z) (st st' : state) :
  free_port env (GetFreePort :: trace st) <> 0 ->
  one_session_per_port st ->
  verify_ssh env host username password ssh_port st = (Return false, st') ->
  sessions_on (free_port env (GetFreePort :: trace st)) st' = [].
Proof.
  intros Hp Hnd. rewrite verify_ssh_unfold.
  destruct (connect_ssh env host username password None ssh_port 3 st)
    as [r st1] eqn:Hrun.
  destruct r as [proxy_info|[e|m]]; [done|done|]. intros [= <-].
  destruct (prepare_None st) as [st0 Hprep]. unfold connect_ssh in Hrun.
  by eapply connect_ssh_failure_frees_port.
Qed.

(** *** Teardown *)

Lemma find_unique_port (x : ProxyInfo.t) (l : list ProxyInfo.t) :
  NoDup (map ProxyInfo.port l) -> In x l ->
  List.find (fun proxy => ProxyInfo.port proxy =? ProxyInfo.port x) l = Some x.
Proof.
  induction l as [|y l IH]; simpl; [tauto|].
  intros Hnd Hin. apply NoDup_cons in Hnd as [Hy Hnd].
  destruct (Z.eqb_spec (ProxyInfo.port y) (ProxyInfo.port x)) as [Heq|Hne].
  - destruct Hin as [->|Hin]; [done|]. exfalso. apply Hy. rewrite Heq.
    apply list_elem_of_In, in_map, Hin.
  - destruct Hin as [->|Hin]; [done|auto].
Qed.

Lemma run_operation_invariant (op : operation) (st : state) :
  one_session_per_port st -> one_session_per_port (run_operation env st op).
Proof.
  intros Hnd. destruct op as [host username password port ssh_port retry
                             |host username password ssh_port|port]; simpl.
  - destruct (connect_ssh env host username password port ssh_port retry st)
      as [r st'] eqn:Hrun. unfold connect_ssh in Hrun.
    destruct (connect_ssh_retries_effects _ _ _ _ _ _ _ _ _ Hrun) as (_ & Hinv & _).
    by apply Hinv.
  - rewrite verify_ssh_unfold.
    destruct (connect_ssh env host username password None ssh_port 3 st)
      as [r st'] eqn:Hrun. unfold connect_ssh in Hrun.
    destruct (connect_ssh_retries_effects _ _ _ _ _ _ _ _ _ Hrun) as (_ & Hinv & _).
    destruct r as [proxy_info|[e|m]]; by apply Hinv.
  - by apply kill_proxy_on_port_invariant.
Qed.

(** C9: [kill_proxy_on_port] on a port without a registered session raises
    [SSHError]; on a registered port it returns, having removed the session
    from [proxies] and closed its connection, and a second call right after
    raises [SSHError]; and after any sequence of [connect_ssh], [verify_ssh]
    and [kill_proxy_on_port] calls from the empty registry no two sessions in
    [proxies] have the same port. *)
Theorem kill_proxy_on_port_teardown :
  (forall port st,
     sessions_on port st = [] ->
     kill_proxy_on_port port st = (Raise (SSHError (NoProxyOnPort port)), st)) /\
  (forall port st proxy,
     one_session_per_port st -> In proxy (proxies st) ->
     ProxyInfo.port proxy = port ->
     exists st1,
       kill_proxy_on_port port st = (Return tt, st1) /\
       proxies st1 = remove_first proxy (proxies st) /\
       sessions_on port st1 = [] /\
       trace st1 = KillSshConnection (ProxyInfo.connection proxy) :: trace st /\
       kill_proxy_on_port port st1 = (Raise (SSHError (NoProxyOnPort port)), st1)) /\
  (forall ops, one_session_per_port (run env ops initial)).
Proof.
  split; [|split].
  - intros port st Hnil. by apply kill_proxy_on_port_absent, find_none_sessions_on.
  - intros port st proxy Hnd Hin <-.
    pose proof (find_unique_port proxy _ Hnd Hin) as Hfind.
    pose proof (kill_proxy_on_port_invariant (ProxyInfo.port proxy) st Hnd) as [_ Hnil].
    rewrite (kill_proxy_on_port_found _ _ _ Hfind) in Hnil |- *. simpl in Hnil.
    eexists. split; [reflexivity|]. simpl. repeat split; [done|].
    by apply kill_proxy_on_port_absent, find_none_sessions_on.
  - intros ops. unfold run.
    assert (Hinit : one_session_per_port initial) by apply NoDup_nil_2.
    revert Hinit. generalize initial. induction ops as [|op ops IH]; simpl; [done|].
    intros st Hnd. by apply IH, run_operation_invariant.
Qed.

End SshControllersFacts.

(** *** The retry policy and the teardown on concrete runs *)

(** The first refused attempt of a call with [retry = 3] hands over to the
    call with [retry = 2] on the port that was allocated. *)
Lemma connect_ssh_retry_policy_witness :
  connect_ssh env_refused "10.0.0.5" "admin" "admin" None 22 3 initial
  = connect_ssh env_refused "10.0.0.5" "admin" "admin" (Some 1080) 22 (3 - 1)
      {| proxies := [];
         trace := [Connect "10.0.0.5" "admin" "admin" 22; GetFreePort] |}.
Proof.
  destruct (connect_ssh_retry_policy env_refused "10.0.0.5" "admin" "admin"
              None 22 3 initial
              {| proxies := []; trace := [GetFreePort] |}
              {| proxies := [];
                 trace := [Connect "10.0.0.5" "admin" "admin" 22; GetFreePort] |}
              1080 (OSError "ConnectionRefusedError") eq_refl eq_refl)
    as [Htransport _].
  apply Htransport; [reflexivity|lia].
Defined.

(** Three retries against a refusing endpoint: four handshakes. *)
Lemma connect_ssh_retry_bound_witness :
  exists st',
    connect_ssh env_refused "10.0.0.5" "admin" "admin" None 22 (Z.of_nat 3) initial
    = (Raise (SSHError (Wrapped (OSError "ConnectionRefusedError"))), st') /\
    connection_attempts (trace st')
    = (connection_attempts (trace initial) + (3 + 1))%nat.
Proof.
  apply (connect_ssh_retry_bound env_refused "10.0.0.5" "admin" "admin" None 22 3
           initial "ConnectionRefusedError").
  intros tr. reflexivity.
Defined.

(** Tearing down the one registered session, twice. *)
Lemma kill_proxy_on_port_teardown_witness :
  exists st1,
    kill_proxy_on_port 1080 one_registered = (Return tt, st1) /\
    proxies st1 = remove_first (ProxyInfo.new 1080 2%nat) (proxies one_registered) /\
    sessions_on 1080 st1 = [] /\
    trace st1 = KillSshConnection 2%nat :: trace one_registered /\
    kill_proxy_on_port 1080 st1 = (Raise (SSHError (NoProxyOnPort 1080)), st1).
Proof.
  destruct (kill_proxy_on_port_teardown env_healthy) as (_ & Hregistered & _).
  apply (Hregistered 1080 one_registered (ProxyInfo.new 1080 2%nat)).
  - apply NoDup_singleton.
  - left. reflexivity.
  - reflexivity.
Defined.

(** C1 (as stated, at a concrete run): a handshake that runs into the connect
    timeout is not retried where [asyncio.TimeoutError] is not an [OSError]:
    with [retry = 3] the call makes one handshake and raises [SSHError]. *)
Lemma connect_timeout_is_not_retried :
  connect_ssh env_timed_out "10.0.0.5" "admin" "admin" None 22 3 initial
  = (Raise (SSHError (Wrapped AsyncioTimeoutError)),
     {| proxies := [];
        trace := [Connect "10.0.0.5" "admin" "admin" 22; GetFreePort] |}).
Proof. reflexivity. Qed.

(** Where [asyncio.TimeoutError] is an [OSError], an [asyncssh.TimeoutError],
    which is an [asyncssh.Error] too, is taken by the [except OSError]
    clause and retried: four handshakes with [retry = 3]. *)
Lemma asyncssh_timeout_is_retried :
  connect_ssh env_asyncssh_timeout "10.0.0.5" "admin" "admin" None 22 3 initial
  = (Raise (SSHError (Wrapped AsyncsshTimeoutError)),
     {| proxies := [];
        trace := [Connect "10.0.0.5" "admin" "admin" 22;
                  Connect "10.0.0.5" "admin" "admin" 22;
                  Connect "10.0.0.5" "admin" "admin" 22;
                  Connect "10.0.0.5" "admin" "admin" 22; GetFreePort] |}).
Proof. reflexivity. Qed.

(** C8 (as stated, at a concrete run): when the handshake raises an exception
    of a class that no handler names (here the cancellation of the awaiting
    task), [verify_ssh] raises it. *)
Lemma verify_ssh_raises :
  verify_ssh env_cancelled "10.0.0.5" "admin" "admin" 22 initial
  = (Raise (LibraryException (OtherException "CancelledError")),
     {| proxies := [];
        trace := [Connect "10.0.0.5" "admin" "admin" 22; GetFreePort] |}).
Proof. reflexivity. Qed.

(** C5 (as the code has it): on a healthy endpoint [verify_ssh] returns true
    and the session it opened on port 1080 is still in [proxies], although its
    connection has been closed. *)
Theorem verify_ssh_keeps_registered_session :
  let run := verify_ssh env_healthy "10.0.0.5" "admin" "admin" 22 initial in
  fst run = Return true /\
  sessions_on 1080 (snd run) = [ProxyInfo.new 1080 2%nat] /\
  In (ForwardSocks 2%nat 1080) (trace (snd run)) /\
  In (KillSshConnection 2%nat) (trace (snd run)).
Proof. vm_compute. intuition. Qed.

(** When the IP lookup comes back empty [verify_ssh] returns false, the
    connection just made has been closed and nothing is registered. *)
Lemma verify_ssh_unreachable_proxy :
  verify_ssh env_unreachable_proxy "10.0.0.5" "admin" "admin" 22 initial
  = (Return false,
     {| proxies := [];
        trace := [KillSshConnection 2%nat; GetProxyIp "socks5://localhost:1080";
                  ForwardSocks 2%nat 1080;
                  Connect "10.0.0.5" "admin" "admin" 22; GetFreePort] |}).
Proof. reflexivity. Qed.

(** A rejected password is not retried. *)
Lemma connect_ssh_denied :
  connect_ssh env_denied "10.0.0.5" "admin" "admin" None 22 3 initial
  = (Raise (SSHError (Wrapped (AsyncsshError "PermissionDenied"))),
     {| proxies := [];
        trace := [Connect "10.0.0.5" "admin" "admin" 22; GetFreePort] |}).
Proof. reflexivity. Qed.

(** ** Entity model *)

Section ModelsFacts.

(** *** Flags of a [Port] *)

(** C2 (amended): [reset_status] leaves [is_working] and [is_connected] both
    false and the [before_update] hook changes neither flag; [assign_ssh] and
    [disconnect_ssh] set [is_connected] to false and leave [is_working] as it
    was, so after them [is_working] implies [is_connected] exactly when
    [is_working] was false before the call. *)
Theorem port_flags_after_operations (self : Port) (new_ssh : option Z)
    (remove_from_used : bool) (now : datetime) (ipv4 : string) :
  (is_working (Port_reset_status self) = false /\
   is_connected (Port_reset_status self) = false) /\
  (is_working (Port_before_update now ipv4 self) = is_working self /\
   is_connected (Port_before_update now ipv4 self) = is_connected self) /\
  (is_connected (Port_assign_ssh new_ssh self) = false /\
   is_working (Port_assign_ssh new_ssh self) = is_working self /\
   ((is_working (Port_assign_ssh new_ssh self) = true ->
     is_connected (Port_assign_ssh new_ssh self) = true) <->
    is_working self = false)) /\
  (is_connected (Port_disconnect_ssh remove_from_used self) = false /\
   is_working (Port_disconnect_ssh remove_from_used self) = is_working self /\
   ((is_working (Port_disconnect_ssh remove_from_used self) = true ->
     is_connected (Port_disconnect_ssh remove_from_used self) = true) <->
    is_working self = false)).
Proof.
  assert (Hbool : forall b : bool, (b = true -> false = true) <-> b = false).
  { intros [|]; split; intros H; try done. by specialize (H eq_refl). }
  split; [done|]. split.
  { destruct self as [lc lm pn ac [s|] [|] ip tc iw used pa];
      unfold Port_before_update; simpl; try case_decide; done. }
  split; [by repeat split; cbn; try apply Hbool|].
  unfold Port_disconnect_ssh.
  destruct (ssh self), remove_from_used; repeat split; cbn; try apply Hbool.
Qed.

(** [update_check_result] stores the flags it is given, whatever the other
    flag is. *)
Lemma update_check_result_sets_is_working (self : Port) (now : datetime) :
  is_working (Port_update_check_result [kw_is_working true] now self) = true /\
  is_connected (Port_update_check_result [kw_is_working true] now self)
  = is_connected self.
Proof. done. Qed.

(** C2 (as stated, at a concrete port): a connected and working port that is
    disconnected is left working but not connected. *)
Lemma disconnect_ssh_leaves_is_working :
  ~ (is_working (Port_commit (Port_disconnect_ssh false) 100 "192.0.2.1" busy_port)
     = true ->
     is_connected (Port_commit (Port_disconnect_ssh false) 100 "192.0.2.1" busy_port)
     = true).
Proof. intros H. specialize (H eq_refl). cbn in H. discriminate H. Qed.

(** *** Disconnecting *)

(** C6 (amended): after [disconnect_ssh(remove_from_used=True)] and the
    write-back, the port's [ssh] is [None], [is_connected] is false,
    [time_connected] and [last_checked] are [None], and the credential the
    port held is no longer in [used_ssh_list]; the other members of
    [used_ssh_list], [is_working] and [public_ip] are as they were. *)
Theorem disconnect_ssh_remove_from_used (self : Port) (now : datetime)
    (ipv4 : string) :
  let port' := Port_commit (Port_disconnect_ssh true) now ipv4 self in
  ssh port' = None /\
  is_connected port' = false /\
  time_connected port' = None /\
  last_checked port' = None /\
  used_ssh_list port' =
    match ssh self with
    | Some s => used_ssh_list self ∖ {[s]}
    | None => used_ssh_list self
    end /\
  is_working port' = is_working self /\
  public_ip port' = public_ip self.
Proof. unfold Port_commit, Port_disconnect_ssh. by destruct (ssh self). Qed.

(** C6 (as stated, at a concrete port): a port that has used two credentials
    is not back at its cleared values after
    [disconnect_ssh(remove_from_used=True)]. *)
Lemma disconnect_ssh_does_not_clear :
  ~ (let port' := Port_commit (Port_disconnect_ssh true) 100 "192.0.2.1" busy_port in
     ssh port' = None /\ is_connected port' = false /\ is_working port' = false /\
     public_ip port' = EmptyString /\ time_connected port' = None /\
     used_ssh_list port' = ∅).
Proof. intros (_ & _ & Hworking & _). cbn in Hworking. discriminate Hworking. Qed.

(** What is left on that port: it still works, shows its last IP and
    remembers credential 2. *)
Lemma disconnect_ssh_leftovers :
  let port' := Port_commit (Port_disconnect_ssh true) 100 "192.0.2.1" busy_port in
  is_working port' = true /\ public_ip port' = "203.0.113.7" /\
  elements (used_ssh_list port') = [2].
Proof. vm_compute. done. Qed.

(** *** Usage history *)

(** The hook of the [Port] adds the held credential, and only while the port
    is connected. *)
Lemma Port_before_update_used_ssh_list (now : datetime) (ipv4 : string)
    (self : Port) :
  used_ssh_list (Port_before_update now ipv4 self) =
  if is_connected self then
    match ssh self with
    | Some s => {[s]} ∪ used_ssh_list self
    | None => used_ssh_list self
    end
  else used_ssh_list self.
Proof.
  destruct self as [lc lm pn ac [s|] [|] ip tc iw used pa];
    unfold Port_before_update; simpl; try done.
  case_decide as Hin; simpl; [|done].
  symmetry. by apply subseteq_union_1_L, singleton_subseteq_l.
Qed.

Lemma Port_assign_ssh_used_ssh_list (new_ssh : option Z) (now : datetime)
    (ipv4 : string) (self : Port) :
  used_ssh_list (Port_commit (Port_assign_ssh new_ssh) now ipv4 self)
  = used_ssh_list self.
Proof. reflexivity. Qed.

(** The hook of the [SSH] adds it to the history of the port that holds it,
    connected or not. *)
Lemma SSH_before_update_used_ssh_list (now : datetime) (s p : Z) (db : Db)
    (row : Port) :
  SSH_port db s = Some p ->
  port_table db !! p = Some row ->
  exists row',
    port_table (SSH_before_update now s db) !! p = Some row' /\
    s ∈ used_ssh_list row' /\
    is_connected row' = is_connected row.
Proof.
  intros Hport Hrow. unfold SSH_before_update.
  change (SSH_port {| ssh_table := alter (set_ssh_last_modified now) s (ssh_table db);
                      port_table := port_table db |} s) with (SSH_port db s).
  rewrite Hport. unfold in_used_ports. simpl. rewrite Hrow.
  case_bool_decide as Hin.
  - exists row. simpl. done.
  - unfold used_ports_add. simpl. rewrite lookup_alter_eq, Hrow. simpl.
    eexists. split; [reflexivity|]. simpl. split; [set_solver|done].
Qed.

(** C7 (as the code has it): port 1 is assigned credential 7 and never
    connected; its history is empty after the assignment, and once the
    liveness check has updated the credential the history holds 7 while the
    port is still not connected. *)
Theorem ssh_hook_fills_history_of_unconnected_port :
  let db1 := Db_assign_ssh (Some 7) 10 "192.0.2.1" 1 small_db in
  let db2 := SSH_update_check_result (Some true) 20 7 db1 in
  (elements ∘ used_ssh_list <$> port_table db1 !! 1) = Some [] /\
  (is_connected <$> port_table db1 !! 1) = Some false /\
  (elements ∘ used_ssh_list <$> port_table db2 !! 1) = Some [7] /\
  (is_connected <$> port_table db2 !! 1) = Some false.
Proof. vm_compute. done. Qed.


(** *** Selecting a credential *)

Lemma elem_of_candidates (db : Db) (port : Port) (s : Z) (row : SSH) :
  In (s, row) (candidates db port true) <->
  ssh_table db !! s = Some row /\ is_live row = Some true /\ s ∉ used_ssh_list port.
Proof.
  unfold candidates, filter_unused, select_is_live.
  rewrite !filter_In, <- list_elem_of_In, elem_of_map_to_list. simpl.
  rewrite !bool_decide_eq_true. tauto.
Qed.

Lemma NoDup_candidates (db : Db) (port : Port) :
  NoDup (candidates db port true).
Proof.
  unfold candidates, filter_unused, select_is_live.
  apply NoDup_ListNoDup. do 2 apply List.NoDup_filter.
  apply NoDup_ListNoDup, NoDup_map_to_list.
Qed.

Lemma get_ssh_for_port_lookup (rnd : nat) (db : Db) (port : Port) (unique : bool) :
  get_ssh_for_port rnd db port unique =
  candidates db port unique !! (rnd `mod` length (candidates db port unique))%nat.
Proof.
  unfold get_ssh_for_port, random_1.
  by destruct (candidates db port unique !! _).
Qed.

Lemma get_ssh_for_port_None (rnd : nat) (db : Db) (port : Port) (unique : bool) :
  get_ssh_for_port rnd db port unique = None <-> candidates db port unique = [].
Proof.
  rewrite get_ssh_for_port_lookup. split.
  - intros Hnone. apply lookup_ge_None in Hnone.
    destruct (candidates db port unique) as [|c l]; [done|]. exfalso.
    pose proof (Nat.mod_upper_bound rnd (length (c :: l))) as Hlt.
    simpl in *. lia.
  - intros ->. done.
Qed.

(** C4: [get_ssh_for_port(port, unique=True)] returns [None] or a stored
    [SSH] whose [is_live] is true and which is not in [port.used_ssh_list]; it
    returns [None] exactly when the store has no such [SSH]; and each of the
    [n] such rows is the one returned for the draws of exactly one residue
    class modulo [n], that is with the same chance [1/n] under a uniform
    draw. *)
Theorem get_ssh_for_port_unique (db : Db) (port : Port) :
  (forall rnd,
     match get_ssh_for_port rnd db port true with
     | Some (s, row) =>
         ssh_table db !! s = Some row /\ is_live row = Some true /\
         s ∉ used_ssh_list port
     | None => True
     end) /\
  (forall rnd,
     get_ssh_for_port rnd db port true = None <->
     (forall s row, ssh_table db !! s = Some row -> is_live row = Some true ->
                    s ∈ used_ssh_list port)) /\
  (forall s row,
     ssh_table db !! s = Some row -> is_live row = Some true ->
     s ∉ used_ssh_list port ->
     exists i, (i < length (candidates db port true))%nat /\
       forall rnd,
         get_ssh_for_port rnd db port true = Some (s, row) <->
         (rnd `mod` length (candidates db port true))%nat = i).
Proof.
  split; [|split].
  - intros rnd. destruct (get_ssh_for_port rnd db port true) as [[s row]|] eqn:Hget;
      [|done].
    rewrite get_ssh_for_port_lookup in Hget.
    apply elem_of_candidates, list_elem_of_In, list_elem_of_lookup. eauto.
  - intros rnd. rewrite get_ssh_for_port_None. split.
    + intros Hnil s row Hrow Hlive.
      destruct (decide (s ∈ used_ssh_list port)) as [|Hunused]; [done|].
      assert (Hin : In (s, row) (candidates db port true))
        by (by apply elem_of_candidates).
      rewrite Hnil in Hin. destruct Hin.
    + intros Hused. destruct (candidates db port true) as [|[s row] l] eqn:Hc; [done|].
      assert (Hin : In (s, row) (candidates db port true))
        by (rewrite Hc; by left).
      apply elem_of_candidates in Hin as (Hrow & Hlive & Hunused).
      destruct Hunused. eauto.
  - intros s row Hrow Hlive Hunused.
    assert (Hin : In (s, row) (candidates db port true))
      by (by apply elem_of_candidates).
    apply list_elem_of_In, list_elem_of_lookup in Hin as [i Hi].
    exists i. split; [by eapply lookup_lt_Some|].
    intros rnd. rewrite get_ssh_for_port_lookup. split.
    + intros Hr. by eapply NoDup_lookup; [apply NoDup_candidates| |].
    + by intros ->.
Qed.

(** With credential 7 live and unused, the port is offered 7 whatever the
    draw. *)
Lemma get_ssh_for_port_unique_witness :
  exists i : nat,
    (i < length (candidates checked_db (fresh_port 20000) true))%nat /\
    forall rnd : nat,
      get_ssh_for_port rnd checked_db (fresh_port 20000) true = Some (7, checked_ssh)
      <-> (rnd `mod` length (candidates checked_db (fresh_port 20000) true))%nat = i.
Proof.
  destruct (get_ssh_for_port_unique checked_db (fresh_port 20000))
    as (_ & _ & Huniform).
  apply Huniform; [by vm_compute|reflexivity|by vm_compute].
Defined.

End ModelsFacts.

(* ===================================================================== *)
(** * Further properties *)
(* ===================================================================== *)

(** ** The registry under [connect_ssh], [verify_ssh] and [kill_proxy_on_port] *)

Section RegistryFacts.
Context (env : environment).

Lemma find_head_filter (f : ProxyInfo.t -> bool) (l : list ProxyInfo.t) :
  List.find f l = head (List.filter f l).
Proof. induction l as [|y l IH]; simpl; [done|]. by destruct (f y). Qed.

Lemma remove_first_found (f : ProxyInfo.t -> bool) (x : ProxyInfo.t)
    (l : list ProxyInfo.t) :
  List.find f l = Some x ->
  List.filter f (remove_first x l) = tail (List.filter f l) /\
  (forall g : ProxyInfo.t -> bool,
      g x = false -> List.filter g (remove_first x l) = List.filter g l) /\
  length l = S (length (remove_first x l)).
Proof.
  induction l as [|y l IH]; simpl; [done|].
  destruct (f y) eqn:Hfy.
  - intros [= ->]. rewrite decide_True by done. simpl.
    split; [done|]. split; [|done]. intros g Hg. by rewrite Hg.
  - intros Hfind. destruct (IH Hfind) as (Hf & Hg & Hlen).
    apply find_some in Hfind as [_ Hfx].
    rewrite decide_False by congruence. simpl. rewrite Hfy.
    split; [done|]. split; [|by rewrite Hlen].
    intros g Hgx. by rewrite (Hg g Hgx).
Qed.

(** X7: a successful [kill_proxy_on_port] removes exactly the oldest session
    registered on the port and closes its connection; the registry is one
    entry shorter and the sessions on every other port are as they were. *)
Theorem kill_proxy_on_port_removes_oldest (port : Z) (st st1 : state) :
  kill_proxy_on_port port st = (Return tt, st1) ->
  sessions_on port st1 = tail (sessions_on port st) /\
  (forall q, q <> port -> sessions_on q st1 = sessions_on q st) /\
  length (proxies st) = S (length (proxies st1)) /\
  exists x, head (sessions_on port st) = Some x /\
            trace st1 = KillSshConnection (ProxyInfo.connection x) :: trace st.
Proof.
  destruct (List.find (fun proxy => ProxyInfo.port proxy =? port) (proxies st))
    as [x|] eqn:Hfind.
  - rewrite (kill_proxy_on_port_found _ _ _ Hfind). intros [= <-].
    destruct (remove_first_found _ _ _ Hfind) as (Hf & Hg & Hlen).
    unfold sessions_on. simpl. split; [done|]. split; [|split; [done|]].
    + intros q Hq. apply Hg. apply find_some in Hfind as [_ Hx].
      apply Z.eqb_eq in Hx. apply Z.eqb_neq. congruence.
    + exists x. by rewrite <- find_head_filter.
  - by rewrite (kill_proxy_on_port_absent _ _ Hfind).
Qed.

Lemma prepare_eq (port : option Z) (st : state) :
  let tr := if not_port port then GetFreePort :: trace st else trace st in
  let p := if not_port port then free_port env (GetFreePort :: trace st)
           else default 0 port in
  prepare env port st =
  (Return p,
   match List.find (fun proxy => ProxyInfo.port proxy =? p) (proxies st) with
   | Some x => {| proxies := remove_first x (proxies st);
                  trace := KillSshConnection (ProxyInfo.connection x) :: tr |}
   | None => {| proxies := proxies st; trace := tr |}
   end).
Proof.
  unfold prepare, get_free_port, kill_proxy_on_port, kill_ssh_connection.
  unfold_M. destruct st as [ps tr0]. simpl.
  destruct (not_port port); simpl; destruct (List.find _ ps); reflexivity.
Qed.

Lemma prepare_frame (port : option Z) (st st0 : state) (p : Z) :
  prepare env port st = (Return p, st0) ->
  (forall q, q <> p -> sessions_on q st0 = sessions_on q st) /\
  (forall x, List.find (fun proxy => ProxyInfo.port proxy =? p) (proxies st) = Some x ->
             exists tr, trace st0 = KillSshConnection (ProxyInfo.connection x) :: tr) /\
  (proxies st = [] -> proxies st0 = [] /\
     exists evs, trace st0 = evs ++ trace st /\
                 forall c, ~ In (KillSshConnection c) evs).
Proof.
  pose proof (prepare_eq port st) as Heq. cbv zeta in Heq. rewrite Heq.
  intros [= <- <-].
  set (p := if not_port port then free_port env (GetFreePort :: trace st)
            else default 0 port).
  destruct (List.find (fun proxy => ProxyInfo.port proxy =? p) (proxies st))
    as [x|] eqn:Hfind.
  - destruct (remove_first_found _ _ _ Hfind) as (_ & Hg & _).
    split; [|split].
    + intros q Hq. unfold sessions_on. simpl. apply Hg.
      apply find_some in Hfind as [_ Hx]. apply Z.eqb_eq in Hx.
      apply Z.eqb_neq. congruence.
    + intros y [= <-]. simpl. eauto.
    + intros Hnil. by rewrite Hnil in Hfind.
  - split; [done|]. split; [done|]. intros Hnil. simpl. split; [done|].
    destruct (not_port port).
    + exists [GetFreePort]. split; [done|]. intros c [?|[]]. done.
    + exists []. split; [done|]. intros c [].
Qed.

Lemma open_tunnel_returned_new (host username password : string)
    (port ssh_port : Z) (st st1 : state) (proxy_info : ProxyInfo.t) :
  open_tunnel env host username password port ssh_port st = (Return proxy_info, st1) ->
  proxy_info = ProxyInfo.new port (ProxyInfo.connection proxy_info).
Proof.
  pose proof (open_tunnel_cases env host username password port ssh_port st) as H.
  simpl in H. intros Hrun. rewrite Hrun in H.
  destruct (connect_outcome env _) as [e|c]; [done|].
  destruct (forward_socks_outcome env _) as [e|]; [done|].
  destruct (Bytes.truthy _); [|done]. by inversion H.
Qed.

Lemma open_tunnel_no_close (host username password : string)
    (port ssh_port : Z) (st st1 : state) (e : library_exception) :
  open_tunnel env host username password port ssh_port st
    = (Raise (LibraryException e), st1) ->
  exists evs, trace st1 = evs ++ trace st /\
              forall c, ~ In (KillSshConnection c) evs.
Proof.
  pose proof (open_tunnel_cases env host username password port ssh_port st) as H.
  simpl in H. intros Hrun. rewrite Hrun in H.
  destruct (connect_outcome env _) as [e1|c1].
  { inversion H; subst.
    exists [Connect host username password ssh_port]. split; [done|].
    intros c [?|[]]. done. }
  destruct (forward_socks_outcome env _) as [e1|].
  { inversion H; subst.
    exists [ForwardSocks c1 port; Connect host username password ssh_port].
    split; [done|]. intros c [?|[?|[]]]; done. }
  by destruct (Bytes.truthy _).
Qed.

(** Where a call of [connect_ssh] on the port [p] leaves the registry: the
    sessions on other ports are untouched, and a returned session is a fresh
    [ProxyInfo] on [p], the last entry of [proxies]. *)
Lemma connect_ssh_retries_registry (host username password : string)
    (ssh_port : Z) (n : nat) :
  forall (port : option Z) (st st0 st' : state) (r : result ProxyInfo.t) (p : Z),
    prepare env port st = (Return p, st0) ->
    p <> 0 ->
    connect_ssh_retries env n host username password port ssh_port st = (r, st') ->
    (forall q, q <> p -> sessions_on q st' = sessions_on q st) /\
    (exists evs, trace st' = evs ++ trace st0) /\
    match r with
    | Return proxy_info =>
        proxy_info = ProxyInfo.new p (ProxyInfo.connection proxy_info) /\
        exists l, proxies st' = l ++ [proxy_info]
    | Raise _ => True
    end.
Proof.
  induction n as [|n IH]; intros port st st0 st' r p Hprep Hp Hrun;
    destruct (prepare_frame _ _ _ _ Hprep) as (Hframe0 & _ & _);
    cbn [connect_ssh_retries] in Hrun;
    rewrite (connect_ssh_body_unfold _ _ _ _ _ _ _ _ _ _ Hprep) in Hrun;
    destruct (open_tunnel env host username password p ssh_port st0)
      as [r1 st1] eqn:Htunnel;
    destruct (open_tunnel_effects _ _ _ _ _ _ _ _ _ Htunnel)
      as (Hproxies & evs1 & Htr1 & _);
    assert (Hframe1 : forall q, q <> p -> sessions_on q st1 = sessions_on q st)
      by (intros q Hq; rewrite <- (Hframe0 q Hq); unfold sessions_on;
          by rewrite Hproxies);
    (destruct r1 as [proxy_info|[e1|m]];
     [pose proof (open_tunnel_returned_new _ _ _ _ _ _ _ _ Htunnel) as Hnew;
      inversion Hrun; subst r st'; clear Hrun;
      split; [|split; [by exists evs1|split; [done|by eexists]]];
      intros q Hq; unfold sessions_on; simpl;
      rewrite List.filter_app; simpl; rewrite Hnew; simpl;
      destruct (Z.eqb_spec p q); [congruence|];
      rewrite app_nil_r; by apply Hframe1
     |
     |inversion Hrun; subst r st'; split; [done|split; [by exists evs1|done]]]);
    (destruct (is_OSError env e1);
     [|destruct (is_asyncssh_Error_or_TimeoutError e1);
       inversion Hrun; subst r st'; (split; [done|split; [by exists evs1|done]])]).
  - inversion Hrun; subst r st'. split; [done|split; [by exists evs1|done]].
  - pose proof (prepare_eq (Some p) st1) as Hprep1. cbv zeta in Hprep1.
    assert (Hnp : not_port (Some p) = false) by (simpl; by apply Z.eqb_neq).
    rewrite Hnp in Hprep1. simpl in Hprep1.
    destruct (prepare_returns env (Some p) st1)
      as (p' & st2 & Hprep2 & _ & (evs2 & Htr2 & _) & _).
    rewrite Hprep1 in Hprep2. inversion Hprep2; subst p'. rewrite H1 in Hprep1.
    destruct (IH (Some p) st1 st2 st' r p Hprep1 Hp Hrun)
      as (Hframe & (evs & Htr) & Hres).
    split; [|split; [|done]].
    + intros q Hq. rewrite (Hframe q Hq). by apply Hframe1.
    + exists (evs ++ evs2 ++ evs1). by rewrite Htr, Htr2, Htr1, !app_assoc.
Qed.


(** X3: a [connect_ssh] call on an explicit port that returns has registered
    what it returns: a [ProxyInfo] on that port with the default host and
    type, whose address is [socks5://localhost:<port>], appended at the end
    of [proxies], the only session on its port, and established. *)
Theorem connect_ssh_registers (host username password : string) (p ssh_port retry : Z)
    (st st' : state) (proxy_info : ProxyInfo.t) :
  p <> 0 ->
  one_session_per_port st ->
  connect_ssh env host username password (Some p) ssh_port retry st
    = (Return proxy_info, st') ->
  proxy_info = ProxyInfo.new p (ProxyInfo.connection proxy_info) /\
  ProxyInfo.address proxy_info = "socks5://localhost:" +:+ pretty p /\
  (exists l, proxies st' = l ++ [proxy_info]) /\
  sessions_on p st' = [proxy_info] /\
  established env host username password ssh_port (trace st') proxy_info.
Proof.
  intros Hp Hnd Hrun. unfold connect_ssh in Hrun.
  pose proof (prepare_eq (Some p) st) as Hprep. cbv zeta in Hprep.
  assert (Hnp : not_port (Some p) = false) by (simpl; by apply Z.eqb_neq).
  rewrite Hnp in Hprep. simpl in Hprep.
  destruct (connect_ssh_retries_registry _ _ _ _ _ _ _ _ _ _ _ Hprep Hp Hrun)
    as (_ & _ & Hnew & Hlast).
  destruct (connect_ssh_retries_effects _ _ _ _ _ _ _ _ _ _ Hrun)
    as (_ & _ & Hest & _ & Hsess).
  assert (Hport : ProxyInfo.port proxy_info = p) by (by rewrite Hnew).
  split; [done|]. split; [rewrite Hnew; reflexivity|]. split; [done|].
  split; [|done]. rewrite <- Hport. by apply Hsess.
Qed.

(** X4: whatever its outcome, a [connect_ssh] call changes the sessions
    registered on no port but the one it forwards (the port it was given, or
    the one the free-port provider returned). *)
Theorem connect_ssh_other_ports (host username password : string)
    (port : option Z) (ssh_port retry : Z) (st st' : state)
    (r : result ProxyInfo.t) (q : Z) :
  let p := if not_port port then free_port env (GetFreePort :: trace st)
           else default 0 port in
  p <> 0 ->
  q <> p ->
  connect_ssh env host username password port ssh_port retry st = (r, st') ->
  sessions_on q st' = sessions_on q st.
Proof.
  intros p Hp Hq Hrun. unfold connect_ssh in Hrun.
  pose proof (prepare_eq port st) as Hprep. cbv zeta in Hprep. fold p in Hprep.
  destruct (connect_ssh_retries_registry _ _ _ _ _ _ _ _ _ _ _ Hprep Hp Hrun)
    as (Hframe & _). by apply Hframe.
Qed.

(** X5: reconnecting a port is not atomic.  When [connect_ssh] is called on
    a port that holds a session and fails, the old session has been removed
    from [proxies] and its connection closed: the port is left with no
    session. *)
Theorem connect_ssh_failure_drops_old_session (host username password : string)
    (p ssh_port retry : Z) (st st' : state) (x : ProxyInfo.t) (e : exception) :
  p <> 0 ->
  one_session_per_port st ->
  In x (proxies st) ->
  ProxyInfo.port x = p ->
  connect_ssh env host username password (Some p) ssh_port retry st = (Raise e, st') ->
  sessions_on p st' = [] /\
  In (KillSshConnection (ProxyInfo.connection x)) (trace st').
Proof.
  intros Hp Hnd Hin Hport Hrun. unfold connect_ssh in Hrun.
  pose proof (prepare_eq (Some p) st) as Hprep. cbv zeta in Hprep.
  assert (Hnp : not_port (Some p) = false) by (simpl; by apply Z.eqb_neq).
  rewrite Hnp in Hprep. simpl in Hprep.
  split; [by eapply connect_ssh_failure_frees_port|].
  destruct (connect_ssh_retries_registry _ _ _ _ _ _ _ _ _ _ _ Hprep Hp Hrun)
    as (_ & (evs & Htr) & _).
  destruct (prepare_frame _ _ _ _ Hprep) as (_ & Hclosed & _).
  pose proof (find_unique_port x _ Hnd Hin) as Hfind. rewrite Hport in Hfind.
  destruct (Hclosed x Hfind) as [tr Htr0].
  rewrite Htr, Htr0. apply in_or_app. right. by left.
Qed.

Lemma connect_ssh_retries_no_close (host username password : string)
    (ssh_port : Z) (n : nat) :
  forall (port : option Z) (st st' : state) (e : library_exception),
    proxies st = [] ->
    connect_ssh_retries env n host username password port ssh_port st
      = (Raise (SSHError (Wrapped e)), st') ->
    exists evs, trace st' = evs ++ trace st /\
                forall c, ~ In (KillSshConnection c) evs.
Proof.
  induction n as [|n IH]; intros port st st' e Hnil Hrun;
    destruct (prepare_returns env port st) as (p & st0 & Hprep & _);
    destruct (prepare_frame _ _ _ _ Hprep) as (_ & _ & Hquiet);
    destruct (Hquiet Hnil) as (Hnil0 & evs0 & Htr0 & Hno0);
    cbn [connect_ssh_retries] in Hrun;
    rewrite (connect_ssh_body_unfold _ _ _ _ _ _ _ _ _ _ Hprep) in Hrun;
    destruct (open_tunnel env host username password p ssh_port st0)
      as [r1 st1] eqn:Htunnel;
    (destruct r1 as [proxy_info|[e1|m]];
     [done|
     |inversion Hrun; subst;
      by destruct (open_tunnel_raised_SSHError _ _ _ _ _ _ _ _ _ Htunnel)]);
    destruct (open_tunnel_no_close _ _ _ _ _ _ _ _ Htunnel) as (evs1 & Htr1 & Hno1);
    destruct (open_tunnel_effects _ _ _ _ _ _ _ _ _ Htunnel) as (Hproxies & _);
    assert (Hhere : exists evs, trace st1 = evs ++ trace st /\
                                forall c, ~ In (KillSshConnection c) evs)
      by (exists (evs1 ++ evs0); split; [by rewrite Htr1, Htr0, app_assoc|];
          intros c Hin; apply in_app_or in Hin as [Hin|Hin];
          [by apply (Hno1 c)|by apply (Hno0 c)]);
    (destruct (is_OSError env e1);
     [|destruct (is_asyncssh_Error_or_TimeoutError e1); by inversion Hrun; subst]).
  - by inversion Hrun; subst.
  - destruct Hhere as (evs & Htr & Hno).
    destruct (IH (Some p) st1 st' e) as (evs' & Htr' & Hno'); [congruence|done|].
    exists (evs' ++ evs). split; [by rewrite Htr', Htr, app_assoc|].
    intros c Hin. apply in_app_or in Hin as [Hin|Hin];
      [by apply (Hno' c)|by apply (Hno c)].
Qed.

(** X6: started on an empty registry, a [connect_ssh] call that ends with an
    [SSHError] wrapping a library exception has closed no connection: a
    connection whose SOCKS forward failed stays open. *)
Theorem connect_ssh_leaves_connection_open (host username password : string)
    (port : option Z) (ssh_port retry : Z) (st st' : state)
    (e : library_exception) :
  proxies st = [] ->
  connect_ssh env host username password port ssh_port retry st
    = (Raise (SSHError (Wrapped e)), st') ->
  exists evs, trace st' = evs ++ trace st /\
              forall c, ~ In (KillSshConnection c) evs.
Proof. intros Hnil Hrun. by eapply connect_ssh_retries_no_close. Qed.

(** X8: [verify_ssh] makes at least one and at most four handshakes, all with
    the credentials it was given, and changes the sessions registered on no
    port but the one the free-port provider returned. *)
Theorem verify_ssh_bounded (host username password : string) (ssh_port : Z)
    (st st' : state) (r : result bool) :
  verify_ssh env host username password ssh_port st = (r, st') ->
  (exists evs, trace st' = evs ++ trace st /\
               (1 <= connection_attempts evs <= 4)%nat /\
               same_parameters host username password ssh_port evs) /\
  (free_port env (GetFreePort :: trace st) <> 0 ->
   forall q, q <> free_port env (GetFreePort :: trace st) ->
             sessions_on q st' = sessions_on q st).
Proof.
  rewrite verify_ssh_unfold.
  destruct (connect_ssh env host username password None ssh_port 3 st)
    as [r1 st1] eqn:Hrun.
  pose proof Hrun as Hrun'. unfold connect_ssh in Hrun'.
  destruct (connect_ssh_retries_effects _ _ _ _ _ _ _ _ _ _ Hrun')
    as ((evs & Htr & Hbound & Hsame) & _).
  change (Z.to_nat 3) with 3%nat in Hbound.
  pose proof (prepare_eq None st) as Hprep. cbv zeta in Hprep. simpl in Hprep.
  assert (Hframe : free_port env (GetFreePort :: trace st) <> 0 ->
            forall q, q <> free_port env (GetFreePort :: trace st) ->
                      sessions_on q st1 = sessions_on q st).
  { intros Hp q Hq.
    destruct (connect_ssh_retries_registry _ _ _ _ _ _ _ _ _ _ _ Hprep Hp Hrun')
      as (Hframe & _). by apply Hframe. }
  destruct r1 as [proxy_info|[e|m]]; intros [= <- <-].
  - split; [|done].
    exists (KillSshConnection (ProxyInfo.connection proxy_info) :: evs).
    simpl. split; [by rewrite Htr|]. split; [done|].
    intros ev [<-|Hin] Hc; [done|by apply Hsame].
  - split; [by exists evs|done].
  - split; [by exists evs|done].
Qed.

(** X19: a [connect_ssh] call with port 0 is the call with no port, whatever
    its outcome: both forward the port the free-port provider returns; when
    that port is not 0, a session the call returns is on it. *)
Theorem connect_ssh_allocates_port (host username password : string)
    (port : option Z) (ssh_port retry : Z) (st : state) :
  not_port port = true ->
  connect_ssh env host username password port ssh_port retry st
  = connect_ssh env host username password None ssh_port retry st /\
  (free_port env (GetFreePort :: trace st) <> 0 ->
   forall proxy_info st',
     connect_ssh env host username password port ssh_port retry st
       = (Return proxy_info, st') ->
     ProxyInfo.port proxy_info = free_port env (GetFreePort :: trace st)).
Proof.
  intros Hnp. split.
  - unfold connect_ssh. destruct port as [p|]; [|done].
    simpl in Hnp. apply Z.eqb_eq in Hnp. subst p.
    by destruct (Z.to_nat retry).
  - intros Hp proxy_info st' Hrun. unfold connect_ssh in Hrun.
    pose proof (prepare_eq port st) as Hprep. cbv zeta in Hprep.
    rewrite Hnp in Hprep.
    destruct (connect_ssh_retries_registry _ _ _ _ _ _ _ _ _ _ _ Hprep Hp Hrun)
      as (_ & _ & Hnew & _).
    by rewrite Hnew.
Qed.

End RegistryFacts.

(** Reconnecting port 1080 on a healthy endpoint leaves port 1081 alone. *)
Lemma connect_ssh_other_ports_witness :
  sessions_on 1081
    (snd (connect_ssh env_healthy "10.0.0.5" "admin" "admin" (Some 1080) 22 3
            two_registered))
  = sessions_on 1081 two_registered.
Proof.
  apply (connect_ssh_other_ports env_healthy "10.0.0.5" "admin" "admin"
           (Some 1080) 22 3 two_registered _
           (fst (connect_ssh env_healthy "10.0.0.5" "admin" "admin" (Some 1080)
                   22 3 two_registered)) 1081);
    [by vm_compute|by vm_compute|reflexivity].
Defined.

(** Port 0 against a refusing endpoint: the failing call is the failing call
    with no port. *)
Lemma connect_ssh_allocates_port_witness :
  connect_ssh env_refused "10.0.0.5" "admin" "admin" (Some 0) 22 3 initial
  = connect_ssh env_refused "10.0.0.5" "admin" "admin" None 22 3 initial.
Proof.
  apply (connect_ssh_allocates_port env_refused "10.0.0.5" "admin" "admin"
           (Some 0) 22 3 initial).
  reflexivity.
Defined.

(** Tearing down the older of the two sessions. *)
Lemma kill_proxy_on_port_removes_oldest_witness :
  sessions_on 1080 {| proxies := [ProxyInfo.new 1081 5%nat];
                      trace := [KillSshConnection 2%nat] |}
  = tail (sessions_on 1080 two_registered).
Proof.
  apply (kill_proxy_on_port_removes_oldest 1080 two_registered
           {| proxies := [ProxyInfo.new 1081 5%nat];
              trace := [KillSshConnection 2%nat] |}).
  reflexivity.
Defined.

(** Reconnecting port 1080 on a healthy endpoint. *)
Lemma connect_ssh_registers_witness :
  sessions_on 1080
    (snd (connect_ssh env_healthy "10.0.0.5" "admin" "admin" (Some 1080) 22 3
            one_registered))
  = [ProxyInfo.new 1080 2%nat].
Proof.
  apply (connect_ssh_registers env_healthy "10.0.0.5" "admin" "admin" 1080 22 3
           one_registered _ (ProxyInfo.new 1080 2%nat));
    [by vm_compute|apply NoDup_singleton|reflexivity].
Defined.

(** Reconnecting port 1080 against an endpoint that refuses. *)
Lemma connect_ssh_failure_drops_old_session_witness :
  sessions_on 1080
    (snd (connect_ssh env_refused "10.0.0.5" "admin" "admin" (Some 1080) 22 3
            one_registered)) = [] /\
  In (KillSshConnection 2%nat)
     (trace (snd (connect_ssh env_refused "10.0.0.5" "admin" "admin" (Some 1080)
                    22 3 one_registered))).
Proof.
  apply (connect_ssh_failure_drops_old_session env_refused "10.0.0.5" "admin"
           "admin" 1080 22 3 one_registered _ (ProxyInfo.new 1080 2%nat)
           (SSHError (Wrapped (OSError "ConnectionRefusedError"))));
    [by vm_compute|apply NoDup_singleton|by left|reflexivity|reflexivity].
Defined.

(** A login whose SOCKS forward is refused. *)
Lemma connect_ssh_leaves_connection_open_witness :
  exists evs,
    trace (snd (connect_ssh env_forward_refused "10.0.0.5" "admin" "admin" None 22 3
                  initial)) = evs ++ trace initial /\
    forall c, ~ In (KillSshConnection c) evs.
Proof.
  apply (connect_ssh_leaves_connection_open env_forward_refused "10.0.0.5" "admin"
           "admin" None 22 3 initial _ (AsyncsshError "ChannelOpenError"));
    reflexivity.
Defined.

(** Verifying a refusing endpoint. *)
Lemma verify_ssh_bounded_witness :
  (exists evs,
      trace (snd (verify_ssh env_refused "10.0.0.5" "admin" "admin" 22 initial))
      = evs ++ trace initial /\
      (1 <= connection_attempts evs <= 4)%nat /\
      same_parameters "10.0.0.5" "admin" "admin" 22 evs) /\
  (free_port env_refused (GetFreePort :: trace initial) <> 0 ->
   forall q, q <> free_port env_refused (GetFreePort :: trace initial) ->
     sessions_on q (snd (verify_ssh env_refused "10.0.0.5" "admin" "admin" 22 initial))
     = sessions_on q initial).
Proof.
  apply (verify_ssh_bounded env_refused "10.0.0.5" "admin" "admin" 22 initial _
           (fst (verify_ssh env_refused "10.0.0.5" "admin" "admin" 22 initial))).
  reflexivity.
Defined.

(** ** Algorithm lists and proxy addresses *)

Section NamesFacts.
Import AlgsConfig.

Lemma decode_all_non_empty (algs : list string) :
  Forall (fun alg => alg <> EmptyString) (decode_all algs).
Proof.
  unfold decode_all, Bytes.decode. rewrite map_id. apply Forall_forall.
  intros alg Hin. apply list_elem_of_In, filter_In in Hin as [_ Htruthy].
  by destruct alg.
Qed.

Lemma fixed_algs (a : asyncssh_algs) :
  server_host_key_algs (get_algs_config a) =
    ["ssh-rsa"; "ssh-dss"; "ecdsa-sha2-nistp256"; "ecdsa-sha2-nistp384";
     "ecdsa-sha2-nistp521"] /\
  mac_algs (get_algs_config a) =
    ["hmac-md5"; "hmac-sha1"; "hmac-sha2-256"; "hmac-sha1-96"; "hmac-md5-96"] /\
  compression_algs (get_algs_config a) = ["none"].
Proof. repeat split. Qed.

Lemma signature_algs_eq (a : asyncssh_algs) :
  signature_algs (get_algs_config a) =
  decode_all (get_x509_certificate_algs a ++ get_public_key_algs a).
Proof.
  unfold get_algs_config. cbv zeta. destruct (Bytes.contains _ _); reflexivity.
Qed.

(** X1: no list of the profile holds an empty name; the host-key, key
    exchange, cipher, MAC and compression lists do not depend on what asyncssh
    offers, and the signature list is asyncssh's X.509 certificate names
    followed by its public-key names, empty ones dropped. *)
Theorem get_algs_config_lists (a b : asyncssh_algs) :
  (Forall (fun alg => alg <> EmptyString) (server_host_key_algs (get_algs_config a)) /\
   Forall (fun alg => alg <> EmptyString) (kex_algs (get_algs_config a)) /\
   Forall (fun alg => alg <> EmptyString) (encryption_algs (get_algs_config a)) /\
   Forall (fun alg => alg <> EmptyString) (mac_algs (get_algs_config a)) /\
   Forall (fun alg => alg <> EmptyString) (compression_algs (get_algs_config a)) /\
   Forall (fun alg => alg <> EmptyString) (signature_algs (get_algs_config a))) /\
  (server_host_key_algs (get_algs_config a) = server_host_key_algs (get_algs_config b) /\
   kex_algs (get_algs_config a) = kex_algs (get_algs_config b) /\
   encryption_algs (get_algs_config a) = encryption_algs (get_algs_config b) /\
   mac_algs (get_algs_config a) = mac_algs (get_algs_config b) /\
   compression_algs (get_algs_config a) = compression_algs (get_algs_config b)) /\
  signature_algs (get_algs_config a) =
    List.filter Bytes.truthy (get_x509_certificate_algs a ++ get_public_key_algs a).
Proof.
  destruct (fixed_algs a) as (Hhost & Hmac & Hcomp).
  destruct (fixed_algs b) as (Hhost' & Hmac' & Hcomp').
  rewrite Hhost, Hmac, Hcomp, Hhost', Hmac', Hcomp', !kex_algs_is_jsch,
    !encryption_algs_drop_3des_ctr, signature_algs_eq.
  split; [|split; [done|]].
  - repeat split; try apply decode_all_non_empty;
      repeat (apply Forall_cons_2; [done|]); apply Forall_nil_2.
  - unfold decode_all, Bytes.decode. by rewrite map_id.
Qed.

Lemma append_inv_head (s a b : string) : s +:+ a = s +:+ b -> a = b.
Proof. induction s as [|c s IH]; simpl; [done|]. intros [= H]. by apply IH. Qed.

(** X2: two sessions with the same host and proxy type and the same address
    are on the same port; sessions on different ports have different
    addresses. *)
Theorem address_determines_port (x y : ProxyInfo.t) :
  ProxyInfo.host x = ProxyInfo.host y ->
  ProxyInfo.proxy_type x = ProxyInfo.proxy_type y ->
  ProxyInfo.address x = ProxyInfo.address y ->
  ProxyInfo.port x = ProxyInfo.port y.
Proof.
  unfold ProxyInfo.address. intros -> -> Heq.
  do 4 apply append_inv_head in Heq. by apply (inj pretty).
Qed.

End NamesFacts.

Lemma address_determines_port_witness :
  ProxyInfo.port (ProxyInfo.new 1080 2%nat) = ProxyInfo.port (ProxyInfo.new 1080 5%nat).
Proof.
  apply (address_determines_port (ProxyInfo.new 1080 2%nat) (ProxyInfo.new 1080 5%nat));
    reflexivity.
Defined.

(** ** Entity methods composed *)

Section EntityFacts.

(** X9: writing a [Port] back twice changes nothing the second time but
    [last_modified]: the connection time of a connected port is the time of
    its first write-back, and the held credential is recorded once. *)
Theorem Port_before_update_twice (now1 now2 : datetime) (ipv4 : string) (self : Port) :
  Port_before_update now2 ipv4 (Port_before_update now1 ipv4 self)
  = set_last_modified now2 (Port_before_update now1 ipv4 self).
Proof.
  destruct self as [lc lm pn ac [s|] [|] ip tc iw used pa];
    unfold Port_before_update; simpl; try done.
  case_decide as Hin; simpl.
  - by rewrite decide_True by done.
  - by rewrite decide_True by (apply elem_of_union_l, elem_of_singleton; done).
Qed.

(** X10: a written-back port needs a reset exactly when it is connected and
    its connection time (the time of the write-back when it had none) is
    before the expiry; a port written back after [assign_ssh] or
    [disconnect_ssh] never needs one, and after [disconnect_ssh] it needs an
    SSH. *)
Theorem need_reset_after_write_back (time_expired now : datetime) (ipv4 : string)
    (self : Port) (new_ssh : option Z) (remove_from_used : bool) :
  Port_need_reset time_expired (Port_before_update now ipv4 self)
  = is_connected self && (default now (time_connected self) <? time_expired) /\
  Port_need_reset time_expired (Port_commit (Port_assign_ssh new_ssh) now ipv4 self)
  = false /\
  Port_need_reset time_expired
    (Port_commit (Port_disconnect_ssh remove_from_used) now ipv4 self) = false /\
  Port_need_ssh (Port_commit (Port_disconnect_ssh remove_from_used) now ipv4 self)
  = true.
Proof.
  split; [|split; [done|]].
  - destruct self as [lc lm pn ac [s|] [|] ip tc iw used pa];
      unfold Port_before_update, Port_need_reset; simpl; try done.
    by case_decide.
  - unfold Port_commit, Port_disconnect_ssh.
    by destruct (ssh self), remove_from_used.
Qed.

Lemma used_ssh_list_kept_hook (now : datetime) (ipv4 : string) (self : Port) :
  used_ssh_list self ⊆ used_ssh_list (Port_before_update now ipv4 self) /\
  (forall s, s ∈ used_ssh_list (Port_before_update now ipv4 self) ->
             s ∈ used_ssh_list self \/ (ssh self = Some s /\ is_connected self = true)).
Proof.
  rewrite Port_before_update_used_ssh_list. split.
  - destruct (is_connected self); [|done]. destruct (ssh self); [|done].
    apply union_subseteq_r.
  - intros s. destruct (is_connected self); [|tauto].
    destruct (ssh self) as [s'|]; [|tauto].
    rewrite elem_of_union, elem_of_singleton. intros [->|?]; tauto.
Qed.

(** X11: the usage history of a port loses no member through the
    [before_update] hook, which adds at most the held credential, nor through
    [assign_ssh] or [disconnect_ssh(remove_from_used=False)], which leave it
    as it is. *)
Theorem used_ssh_list_kept (now : datetime) (ipv4 : string) (self : Port)
    (new_ssh : option Z) :
  used_ssh_list self ⊆ used_ssh_list (Port_before_update now ipv4 self) /\
  (forall s, s ∈ used_ssh_list (Port_before_update now ipv4 self) ->
             s ∈ used_ssh_list self \/ (ssh self = Some s /\ is_connected self = true)) /\
  used_ssh_list (Port_assign_ssh new_ssh self) = used_ssh_list self /\
  used_ssh_list (Port_disconnect_ssh false self) = used_ssh_list self.
Proof.
  destruct (used_ssh_list_kept_hook now ipv4 self) as [Hsub Honly].
  split; [done|]. split; [done|]. split; [done|].
  unfold Port_disconnect_ssh. by destruct (ssh self).
Qed.

Lemma get_ssh_for_port_candidate (rnd : nat) (db : Db) (port : Port) (unique : bool)
    (s : Z) (row : SSH) :
  get_ssh_for_port rnd db port unique = Some (s, row) ->
  In (s, row) (candidates db port unique).
Proof.
  rewrite get_ssh_for_port_lookup. intros Hget.
  apply list_elem_of_In, list_elem_of_lookup. eauto.
Qed.

Lemma candidate_is_drawn (db : Db) (port : Port) (unique : bool) (s : Z) (row : SSH) :
  In (s, row) (candidates db port unique) ->
  exists rnd, get_ssh_for_port rnd db port unique = Some (s, row).
Proof.
  intros Hin. apply list_elem_of_In, list_elem_of_lookup in Hin as [i Hi].
  exists i. rewrite get_ssh_for_port_lookup.
  rewrite Nat.mod_small by (by eapply lookup_lt_Some). done.
Qed.

(** X12: once a connected port holding credential [s] has been written back,
    [get_ssh_for_port(port, unique=True)] does not return [s] for it, neither
    then nor after the port has been disconnected without
    [remove_from_used]. *)
Theorem connected_credential_not_offered_again (self : Port) (s : Z)
    (now now' : datetime) (ipv4 : string) (rnd : nat) (db : Db) (row : SSH) :
  is_connected self = true ->
  ssh self = Some s ->
  get_ssh_for_port rnd db (Port_before_update now ipv4 self) true <> Some (s, row) /\
  get_ssh_for_port rnd db
    (Port_commit (Port_disconnect_ssh false) now' ipv4
       (Port_before_update now ipv4 self)) true <> Some (s, row).
Proof.
  intros Hc Hs.
  assert (Hused : s ∈ used_ssh_list (Port_before_update now ipv4 self)).
  { rewrite Port_before_update_used_ssh_list, Hc, Hs.
    apply elem_of_union_l. by apply elem_of_singleton. }
  split; intros Hget; apply get_ssh_for_port_candidate, elem_of_candidates in Hget
    as (_ & _ & Hunused); apply Hunused; [done|].
  unfold Port_commit.
  apply (proj1 (used_ssh_list_kept_hook now' ipv4 _)).
  unfold Port_disconnect_ssh. by destruct (ssh (Port_before_update now ipv4 self)).
Qed.

(** X13: after [disconnect_ssh(remove_from_used=True)] and the write-back,
    the credential the port was holding can be selected for it again: if it
    is stored and live, some draw of [get_ssh_for_port(port, unique=True)]
    returns it. *)
Theorem removed_credential_is_offered_again (self : Port) (s : Z) (db : Db)
    (row : SSH) (now : datetime) (ipv4 : string) :
  ssh self = Some s ->
  ssh_table db !! s = Some row ->
  is_live row = Some true ->
  exists rnd,
    get_ssh_for_port rnd db (Port_commit (Port_disconnect_ssh true) now ipv4 self) true
    = Some (s, row).
Proof.
  intros Hs Hrow Hlive. apply candidate_is_drawn, elem_of_candidates.
  split; [done|]. split; [done|].
  unfold Port_commit. intros Hin.
  apply used_ssh_list_kept_hook in Hin as [Hin|[Hheld _]].
  - unfold Port_disconnect_ssh in Hin. rewrite Hs in Hin. simpl in Hin.
    apply elem_of_difference in Hin as [_ Hne]. apply Hne. by apply elem_of_singleton.
  - unfold Port_disconnect_ssh in Hheld. by destruct (ssh self).
Qed.

Lemma elem_of_select_is_live (db : Db) (s : Z) (row : SSH) :
  In (s, row) (select_is_live db) <->
  ssh_table db !! s = Some row /\ is_live row = Some true.
Proof.
  unfold select_is_live.
  rewrite filter_In, <- list_elem_of_In, elem_of_map_to_list. simpl.
  by rewrite bool_decide_eq_true.
Qed.

(** X14: [get_ssh_for_port(port, unique=False)] returns [None] or a stored
    [SSH] whose [is_live] is true, [None] exactly when no stored [SSH] is
    live; every live [SSH] is returned by some draw, also one the port has
    used. *)
Theorem get_ssh_for_port_any (db : Db) (port : Port) :
  (forall rnd,
     match get_ssh_for_port rnd db port false with
     | Some (s, row) => ssh_table db !! s = Some row /\ is_live row = Some true
     | None => forall s row, ssh_table db !! s = Some row -> is_live row <> Some true
     end) /\
  (forall s row,
     ssh_table db !! s = Some row -> is_live row = Some true ->
     exists rnd, get_ssh_for_port rnd db port false = Some (s, row)).
Proof.
  split.
  - intros rnd.
    destruct (get_ssh_for_port rnd db port false) as [[s row]|] eqn:Hget.
    + by apply get_ssh_for_port_candidate, elem_of_select_is_live in Hget.
    + apply get_ssh_for_port_None in Hget. intros s row Hrow Hlive.
      assert (Hin : In (s, row) (candidates db port false))
        by (by apply elem_of_select_is_live).
      rewrite Hget in Hin. destruct Hin.
  - intros s row Hrow Hlive. apply candidate_is_drawn.
    by apply elem_of_select_is_live.
Qed.

Lemma filter_all (A : Type) (f : A -> bool) (l : list A) :
  (forall x, In x l -> f x = true) -> List.filter f l = l.
Proof.
  induction l as [|x l IH]; simpl; [done|]. intros Hall.
  rewrite (Hall x) by (by left). f_equal. apply IH. intros y Hy. apply Hall. by right.
Qed.

(** X15: [reset_status] forgets the whole history: for a reset port the
    selection with [unique=True] is the selection with [unique=False];
    resetting twice is resetting once; and a reset port, written back, needs
    an SSH and no reset. *)
Theorem reset_status_forgets_history (self : Port) (db : Db) (rnd : nat)
    (now time_expired : datetime) (ipv4 : string) :
  get_ssh_for_port rnd db (Port_reset_status self) true
  = get_ssh_for_port rnd db self false /\
  Port_reset_status (Port_reset_status self) = Port_reset_status self /\
  Port_need_ssh (Port_commit Port_reset_status now ipv4 self) = true /\
  Port_need_reset time_expired (Port_commit Port_reset_status now ipv4 self) = false.
Proof.
  split; [|done].
  unfold get_ssh_for_port, candidates, filter_unused. simpl.
  rewrite filter_all; [done|].
  intros [s row] _. simpl. apply bool_decide_eq_true, not_elem_of_empty.
Qed.

(** X16: [delete_if_died] leaves a live [SSH] alone and returns false; an
    [SSH] whose [is_live] is false or was never set is deleted and true is
    returned: its row is gone, the other rows are as they were, and
    [get_ssh_for_port] no longer returns it. *)
Theorem delete_if_died_outcome (now : datetime) (ipv4 : string) (s : Z) (db : Db)
    (row : SSH) :
  ssh_table db !! s = Some row ->
  (is_live row = Some true -> delete_if_died now ipv4 s db = (db, false)) /\
  (is_live row <> Some true ->
   snd (delete_if_died now ipv4 s db) = true /\
   ssh_table (fst (delete_if_died now ipv4 s db)) !! s = None /\
   (forall s', s' <> s ->
      ssh_table (fst (delete_if_died now ipv4 s db)) !! s' = ssh_table db !! s') /\
   (forall rnd port unique row',
      get_ssh_for_port rnd (fst (delete_if_died now ipv4 s db)) port unique
      <> Some (s, row'))).
Proof.
  intros Hrow. unfold delete_if_died. rewrite Hrow. split.
  - by intros ->.
  - intros Hdead.
    assert (Hdel : (match is_live row with
                    | Some true => (db, false)
                    | _ => (SSH_delete now ipv4 s db, true)
                    end) = (SSH_delete now ipv4 s db, true))
      by (by destruct (is_live row) as [[|]|]).
    rewrite Hdel. simpl. split; [done|]. split; [apply lookup_delete_eq|].
    split; [intros s' Hne; by apply lookup_delete_ne|].
    intros rnd port unique row' Hget.
    apply get_ssh_for_port_candidate in Hget.
    assert (Hlive : In (s, row') (select_is_live (SSH_delete now ipv4 s db))).
    { unfold candidates, filter_unused in Hget.
      destruct unique; [by apply filter_In in Hget as [Hget _]|done]. }
    apply elem_of_select_is_live in Hlive as [Hlookup _]. simpl in Hlookup.
    by rewrite lookup_delete_eq in Hlookup.
Qed.

Lemma SSH_port_holds (db : Db) (s p : Z) :
  SSH_port db s = Some p ->
  exists row, port_table db !! p = Some row /\ ssh row = Some s.
Proof.
  unfold SSH_port. intros Hport.
  destruct (List.find _ (map_to_list (port_table db))) as [[p' row]|] eqn:Hfind;
    [|done].
  simpl in Hport. injection Hport as ->.
  apply find_some in Hfind as [Hin Hheld]. simpl in Hheld.
  apply bool_decide_eq_true in Hheld.
  apply list_elem_of_In, elem_of_map_to_list in Hin. eauto.
Qed.

(** X17: [SSH.before_update] changes no column of any [Port] but
    [used_ssh_list], and that only on a port that holds the [SSH], where it
    adds the [SSH] and nothing else; when no port holds the [SSH] the [Port]
    table is unchanged; the other [SSH] rows are untouched and the row itself
    changes in [last_modified] only. *)
Theorem SSH_before_update_ports (now : datetime) (s : Z) (db : Db) :
  (SSH_port db s = None ->
   port_table (SSH_before_update now s db) = port_table db) /\
  (forall p row,
     port_table db !! p = Some row ->
     port_table (SSH_before_update now s db) !! p = Some row \/
     (ssh row = Some s /\
      port_table (SSH_before_update now s db) !! p
      = Some (set_used_ssh_list ({[s]} ∪ used_ssh_list row) row))) /\
  ssh_table (SSH_before_update now s db)
  = alter (set_ssh_last_modified now) s (ssh_table db).
Proof.
  unfold SSH_before_update.
  change (SSH_port {| ssh_table := alter (set_ssh_last_modified now) s (ssh_table db);
                      port_table := port_table db |} s) with (SSH_port db s).
  destruct (SSH_port db s) as [p0|] eqn:Hport;
    [|split; [done|split; [intros; by left|done]]].
  split; [done|].
  destruct (SSH_port_holds _ _ _ Hport) as (row0 & Hrow0 & Hheld).
  unfold in_used_ports. simpl. rewrite Hrow0.
  case_bool_decide as Hin; simpl; [split; [|done]; intros; by left|].
  split; [|done]. intros p row Hrow.
  destruct (decide (p = p0)) as [->|Hne].
  - right. rewrite lookup_alter_eq, Hrow. simpl.
    rewrite Hrow0 in Hrow. by injection Hrow as ->.
  - left. by rewrite lookup_alter_ne.
Qed.

End EntityFacts.

(** A connected port holding credential 1 is not offered it again. *)
Lemma connected_credential_not_offered_again_witness :
  get_ssh_for_port 0 checked_db (Port_before_update 100 "192.0.2.1" busy_port) true
  <> Some (1, checked_ssh) /\
  get_ssh_for_port 0 checked_db
    (Port_commit (Port_disconnect_ssh false) 110 "192.0.2.1"
       (Port_before_update 100 "192.0.2.1" busy_port)) true
  <> Some (1, checked_ssh).
Proof.
  apply (connected_credential_not_offered_again busy_port 1 100 110 "192.0.2.1"
           0 checked_db checked_ssh); reflexivity.
Defined.

(** A port that held the live credential 7 is offered it again. *)
Lemma removed_credential_is_offered_again_witness :
  exists rnd,
    get_ssh_for_port rnd checked_db
      (Port_commit (Port_disconnect_ssh true) 100 "192.0.2.1"
         (Port_assign_ssh (Some 7) (fresh_port 20000))) true
    = Some (7, checked_ssh).
Proof.
  apply (removed_credential_is_offered_again
           (Port_assign_ssh (Some 7) (fresh_port 20000)) 7 checked_db checked_ssh
           100 "192.0.2.1"); [reflexivity|by vm_compute|reflexivity].
Defined.

(** Credential 7 of [small_db] was never checked: it is deleted. *)
Lemma delete_if_died_outcome_witness :
  snd (delete_if_died 30 "192.0.2.1" 7 small_db) = true /\
  ssh_table (fst (delete_if_died 30 "192.0.2.1" 7 small_db)) !! 7 = None /\
  (forall s', s' <> 7 ->
     ssh_table (fst (delete_if_died 30 "192.0.2.1" 7 small_db)) !! s'
     = ssh_table small_db !! s') /\
  (forall rnd port unique row',
     get_ssh_for_port rnd (fst (delete_if_died 30 "192.0.2.1" 7 small_db)) port unique
     <> Some (7, row')).
Proof.
  apply (delete_if_died_outcome 30 "192.0.2.1" 7 small_db (fresh_ssh "10.0.0.5")).
  - by vm_compute.
  - discriminate.
Defined.

(** ** Configuration table *)

Section ConfigFacts.
Import Config.

Lemma pydantic_args_fold_other (table : list ConfigItem)
    (acc : gmap string (py_type * py_value)) (key : string) :
  (forall item, In item table -> full_name item <> key) ->
  fold_left (fun args i => <[full_name i := (type (value i), value i)]> args) table acc
    !! key = acc !! key.
Proof.
  revert acc. induction table as [|i table IH]; intros acc Hother; simpl; [done|].
  rewrite IH by (intros item Hin; apply Hother; by right).
  apply lookup_insert_ne, Hother. by left.
Qed.

Lemma pydantic_args_fold_some (table : list ConfigItem)
    (acc : gmap string (py_type * py_value)) (key : string) :
  is_Some (acc !! key) ->
  is_Some (fold_left (fun args i => <[full_name i := (type (value i), value i)]> args)
             table acc !! key).
Proof.
  revert acc. induction table as [|i table IH]; intros acc Hsome; simpl; [done|].
  apply IH. destruct (decide (full_name i = key)) as [->|Hne].
  - rewrite lookup_insert_eq. eauto.
  - by rewrite lookup_insert_ne.
Qed.

Lemma pydantic_args_fold_item (table : list ConfigItem)
    (acc : gmap string (py_type * py_value)) (item : ConfigItem) :
  NoDup (map full_name table) ->
  In item table ->
  fold_left (fun args i => <[full_name i := (type (value i), value i)]> args) table acc
    !! full_name item = Some (type (value item), value item).
Proof.
  revert acc. induction table as [|i table IH]; intros acc Hnd Hin; simpl; [done|].
  simpl in Hnd. apply NoDup_cons in Hnd as [Hfresh Hnd].
  destruct Hin as [->|Hin]; [|by apply IH].
  rewrite pydantic_args_fold_other; [apply lookup_insert_eq|].
  intros other Hother Heq. apply Hfresh. rewrite <- Heq.
  by apply list_elem_of_In, in_map.
Qed.

(** X18: for a table whose full names are pairwise distinct, [PYDANTIC_ARGS]
    maps the full name of every item to the type and value of that item, and
    [get] on that name hands that same item to [get_by_item]; a name that no
    item carries is not a key of [PYDANTIC_ARGS], and [get] raises
    [RuntimeError] on it. *)
Theorem get_agrees_with_pydantic_args (A : Type) (table : list ConfigItem)
    (get_by_item : ConfigItem -> A) :
  NoDup (map full_name table) ->
  (forall item, In item table ->
     pydantic_args table !! full_name item = Some (type (value item), value item) /\
     get_in table get_by_item (full_name item) = Returned (get_by_item item)) /\
  (forall key, (forall item, In item table -> full_name item <> key) ->
     pydantic_args table !! key = None /\
     get_in table get_by_item key = RuntimeError key).
Proof.
  intros Hnd. split.
  - intros item Hin. split; [by apply pydantic_args_fold_item|].
    unfold get_in.
    destruct (List.find (fun i => String.eqb (full_name i) (full_name item)) table)
      as [found|] eqn:Hfind.
    + apply find_some in Hfind as [Hfound Heq]. apply String.eqb_eq in Heq.
      f_equal. f_equal. clear get_by_item.
      induction table as [|i table IH]; [done|].
      simpl in Hnd. apply NoDup_cons in Hnd as [Hfresh Hnd].
      destruct Hin as [->|Hin], Hfound as [->|Hfound]; try done.
      * exfalso. apply Hfresh. rewrite <- Heq. by apply list_elem_of_In, in_map.
      * exfalso. apply Hfresh. rewrite Heq. by apply list_elem_of_In, in_map.
      * by apply IH.
    + exfalso. apply (find_none _ _ Hfind item) in Hin.
      by rewrite String.eqb_refl in Hin.
  - intros key Hother. split.
    + unfold pydantic_args. by rewrite pydantic_args_fold_other.
    + unfold get_in.
      destruct (List.find (fun i => String.eqb (full_name i) key) table)
        as [found|] eqn:Hfind; [|done].
      apply find_some in Hfind as [Hfound Heq]. apply String.eqb_eq in Heq.
      by destruct (Hother found Hfound).
Qed.

End ConfigFacts.

(** The full names of [DEFAULT_CONFIG] are pairwise distinct, so each of its
    items is the one [get] reads and [PYDANTIC_ARGS] describes. *)
Lemma get_agrees_with_pydantic_args_witness :
  (forall item, In item Config.DEFAULT_CONFIG ->
     Config.PYDANTIC_ARGS !! Config.full_name item
     = Some (Config.type (Config.value item), Config.value item) /\
     Config.get Config.value (Config.full_name item)
     = Config.Returned (Config.value item)) /\
  (forall key, (forall item, In item Config.DEFAULT_CONFIG -> Config.full_name item <> key) ->
     Config.PYDANTIC_ARGS !! key = None /\
     Config.get Config.value key = Config.RuntimeError key).
Proof.
  apply (get_agrees_with_pydantic_args Config.py_value Config.DEFAULT_CONFIG
           Config.value).
  apply (bool_decide_unpack _). vm_compute. exact I.
Defined.
